(** * A verification model of [shortcut_tool.py]

    The program is a small Tk application: a configuration record (a hotkey
    and an ordered list of title/description entries) is loaded from a JSON
    file, shown in an overlay window that a global hotkey toggles, edited in a
    settings window and written back on an explicit save.

    The embedding follows the source method by method.  A Python string is
    the sequence of its code points, Python values are an inductive type,
    exceptions are values of a result type, the file system is a finite map
    from paths to file texts, the one [AppConfig] object lives in a heap so
    that the windows that share it really alias it, and the methods of the
    three window classes are actions of a state-and-exception monad in which
    the state survives a raised exception, as it does in Python. *)

From Stdlib Require Import ZArith NArith Ascii String List.
From Stdlib Require Import SpecFloat.
From stdpp Require Import base option list strings gmap.

Local Set Warnings "-register-all".

(** ** Python strings

    A [str] is the sequence of its code points, numbers below [0x110000].
    The code points [0xD800] to [0xDFFF] are the surrogates: a [str] may hold
    them, [json.load] yields them from an escape such as ["\ud800"], and
    UTF-8 cannot encode them. *)

Record str : Type := Str { codes : list N }.

(** String literals stand for the [str] of their ASCII characters. *)
Definition str_of_bytes (bytes : list Byte.byte) : option str :=
  if forallb (fun b => N.ltb (Byte.to_N b) 128) bytes
  then Some (Str (map Byte.to_N bytes))
  else None.

Definition bytes_of_str (s : str) : option (list Byte.byte) :=
  if forallb (fun c => N.ltb c 128) (codes s)
  then Some (omap Byte.of_N (codes s))
  else None.

Declare Scope str_scope.
Delimit Scope str_scope with str.
String Notation str str_of_bytes bytes_of_str : str_scope.
Bind Scope str_scope with str.

Local Open Scope string_scope.
Local Open Scope list_scope.
Local Open Scope str_scope.

#[global] Instance str_eq_dec : EqDecision str.
Proof. solve_decision. Defined.

Definition is_surrogate (c : N) : bool := ((55296 <=? c) && (c <=? 57343))%N.

(** What [str.encode("utf-8")] accepts: a string without surrogates. *)
Definition utf8_encodable (s : str) : bool :=
  forallb (fun c => negb (is_surrogate c)) (codes s).

(** ** Python values

    What [json.load] can produce, which is also everything the program ever
    stores in a configuration.  A [dict] is the list of its fields in
    insertion order; the keys of a Python dict are distinct, and reading a
    key takes the field that has it. *)

Inductive value : Type :=
| VNone
| VBool (b : bool)
| VInt (n : Z)
| VFloat (f : spec_float)
| VStr (s : str)
| VList (items : list value)
| VDict (fields : list (str * value)).

#[global] Instance spec_float_eq_dec : EqDecision spec_float.
Proof. solve_decision. Defined.

#[global] Instance value_eq_dec : EqDecision value.
Proof.
  refine (fix go (x y : value) {struct x} : Decision (x = y) :=
    match x, y with
    | VNone, VNone => left _
    | VBool a, VBool b => cast_if (decide (a = b))
    | VInt a, VInt b => cast_if (decide (a = b))
    | VFloat a, VFloat b => cast_if (decide (a = b))
    | VStr a, VStr b => cast_if (decide (a = b))
    | VList xs, VList ys => cast_if (@list_eq_dec _ go xs ys)
    | VDict xs, VDict ys => cast_if (@list_eq_dec _ (@prod_eq_dec _ _ _ go) xs ys)
    | _, _ => right _
    end); clear go; congruence.
Defined.

Inductive exn : Type :=
| JSONDecodeError
| AttributeError
| KeyError (key : str)
| TypeError
| IndexError
| ValueError
| UnicodeEncodeError.

Inductive result (A : Type) : Type :=
| Ok (a : A)
| Raise (e : exn).

Arguments Ok {A} a.
Arguments Raise {A} e.

#[global] Instance result_ret : MRet result := fun A a => Ok a.

#[global] Instance result_bind : MBind result := fun A B f m =>
  match m with
  | Ok a => f a
  | Raise e => Raise e
  end.

(** [d[key]] on the field list of a dict. *)
Fixpoint dict_lookup (key : str) (fields : list (str * value)) : option value :=
  match fields with
  | [] => None
  | (k, v) :: rest => if decide (k = key) then Some v else dict_lookup key rest
  end.

(** [data.get(key, default)]: only a dict has the method. *)
Definition py_get (data : value) (key : str) (default : value) : result value :=
  match data with
  | VDict fields =>
      match dict_lookup key fields with
      | Some v => Ok v
      | None => Ok default
      end
  | _ => Raise AttributeError
  end.

(** [item[key]] with a string key: a dict answers or raises [KeyError];
    strings and lists want integer indices, the other values are not
    subscriptable. *)
Definition py_getitem (item : value) (key : str) : result value :=
  match item with
  | VDict fields =>
      match dict_lookup key fields with
      | Some v => Ok v
      | None => Raise (KeyError key)
      end
  | _ => Raise TypeError
  end.

(** The characters of a string, each a string of length one. *)
Definition chars (s : str) : list value :=
  map (fun c => VStr (Str [c])) (codes s).

(** [for item in v]: a list yields its items, a string its characters, a dict
    its keys; nothing else is iterable. *)
Definition py_iter (v : value) : result (list value) :=
  match v with
  | VList items => Ok items
  | VStr s => Ok (chars s)
  | VDict fields => Ok (map (fun kv => VStr (fst kv)) fields)
  | _ => Raise TypeError
  end.

(** A list comprehension [[f(item) for item in items]]: left to right, the
    first exception ends it. *)
Fixpoint comprehension {A B : Type} (f : A -> result B) (items : list A) : result (list B) :=
  match items with
  | [] => Ok []
  | item :: rest =>
      y ← f item;
      ys ← comprehension f rest;
      mret (y :: ys)
  end.

(** ** The data classes

    A dataclass does not check its annotations: whatever [json.load] found
    under a key is what the field holds. *)

Record ShortcutItem : Type := { title : value; description : value }.

Record AppConfig : Type := { hotkey : value; shortcuts : list ShortcutItem }.

Definition default_hotkey : value := VStr "ctrl+shift+s".

(** [AppConfig(shortcuts=[...])] of the missing-file branch of [load]. *)
Definition seeded_config : AppConfig :=
  {| hotkey := default_hotkey;
     shortcuts :=
       [ {| title := VStr "Win+E"; description := VStr "Open File Explorer" |};
         {| title := VStr "Win+L"; description := VStr "Lock the PC" |} ] |}.

(** ** Files

    The [json] module is the standard library's, not the program's, so the
    text of a file is kept up to what [json.load] makes of it: [JsonText doc]
    is a text that decodes to [doc], [BadText raw] a text [raw] that
    [json.load] rejects, and [TruncatedText payload] the beginning of the
    text of [payload] that [json.dump] had written when it failed, which is
    a text that [json.load] rejects as well: it stops before the document
    is complete.  Failures of the operating system, a path that cannot be
    opened or a disk that cannot be written, are not part of the model:
    opening a file always succeeds. *)

Inductive file_text : Type :=
| JsonText (doc : value)
| BadText (raw : string)
| TruncatedText (payload : value).

Definition json_load (text : file_text) : result value :=
  match text with
  | JsonText doc => Ok doc
  | BadText _ => Raise JSONDecodeError
  | TruncatedText _ => Raise JSONDecodeError
  end.

(** A value all of whose strings, keys included, UTF-8 can encode. *)
Fixpoint encodable (v : value) : bool :=
  match v with
  | VStr s => utf8_encodable s
  | VList items => forallb encodable items
  | VDict fields =>
      forallb (fun kv : str * value =>
                 let (k, x) := kv in utf8_encodable k && encodable x) fields
  | _ => true
  end.

(** [json.dump(payload, handle, ensure_ascii=False, indent=2)] on a handle
    opened with [encoding="utf-8"]: the text goes to the handle piece by
    piece, and the piece with a surrogate makes the handle raise
    [UnicodeEncodeError], with the pieces before it written.  Otherwise the
    text written, whatever its layout, decodes to the payload.  The result
    is the text the file ends up with and how the call ends. *)
Definition json_dump (payload : value) : file_text * result unit :=
  if encodable payload then (JsonText payload, Ok tt)
  else (TruncatedText payload, Raise UnicodeEncodeError).

Abbreviation filesystem := (gmap string file_text).

(** ** ConfigManager *)

Record ConfigManager : Type := { path : string }.

Definition item_of_json (item : value) : result ShortcutItem :=
  t ← py_getitem item "title";
  d ← py_getitem item "description";
  mret {| title := t; description := d |}.

Definition load (self : ConfigManager) (fs : filesystem) : result AppConfig :=
  match fs !! path self with
  | None => Ok seeded_config
  | Some text =>
      data ← json_load text;
      listed ← py_get data "shortcuts" (VList []);
      items ← py_iter listed;
      entries ← comprehension item_of_json items;
      key ← py_get data "hotkey" default_hotkey;
      mret {| hotkey := key; shortcuts := entries |}
  end.

Definition item_to_json (item : ShortcutItem) : value :=
  VDict [("title", title item); ("description", description item)].

Definition payload (config : AppConfig) : value :=
  VDict [("hotkey", hotkey config);
         ("shortcuts", VList (map item_to_json (shortcuts config)))].

(** [save]: opening the file for writing replaces it, then [json.dump]
    fills it.  The result is the file system afterwards and how the call
    ends. *)
Definition save (self : ConfigManager) (config : AppConfig) (fs : filesystem)
    : filesystem * result unit :=
  let (text, outcome) := json_dump (payload config) in
  (<[path self := text]> fs, outcome).

(** A configuration as the spec's data model has it: strings throughout. *)
Definition entry (t d : str) : ShortcutItem :=
  {| title := VStr t; description := VStr d |}.

Definition config_of (key : str) (entries : list (str * str)) : AppConfig :=
  {| hotkey := VStr key; shortcuts := map (fun td => entry (fst td) (snd td)) entries |}.

(** A configuration that [save] can write: UTF-8 can encode all its
    strings. *)
Definition config_encodable (c : AppConfig) : bool :=
  encodable (hotkey c)
  && forallb (fun item => encodable (title item) && encodable (description item))
       (shortcuts c).

(** The structure [load] expects of a file, said without running [load]: a
    JSON object whose ["shortcuts"], when there, iterates over objects that
    each have a ["title"] and a ["description"]. *)
Definition item_ok (item : value) : bool :=
  match item with
  | VDict fields =>
      bool_decide (is_Some (dict_lookup "title" fields))
      && bool_decide (is_Some (dict_lookup "description" fields))
  | _ => false
  end.

Definition iterates_over_items (listed : value) : bool :=
  match listed with
  | VList items => forallb item_ok items
  | VStr s => bool_decide (s = "")
  | VDict fields => bool_decide (fields = [])
  | _ => false
  end.

Definition well_structured (text : file_text) : bool :=
  match text with
  | JsonText (VDict fields) =>
      match dict_lookup "shortcuts" fields with
      | Some listed => iterates_over_items listed
      | None => true
      end
  | _ => false
  end.

(** ** The running application

    Everything a method can read or change: the file system, the bindings
    held by the [keyboard] library, the message boxes shown so far, the heap
    of [AppConfig] objects, and the fields of the application object with its
    two windows.  A window holds a reference to its configuration, not a
    copy. *)

Definition loc : Type := nat.

(** [wm state] of a Tk toplevel.  The fifth state of Tk, [icon], belongs to
    a window installed as the icon of another one, which the program never
    does. *)
Inductive wm_state : Type := Normal | Iconic | Withdrawn | Zoomed.

Inductive dialog : Type :=
| ShowInfo (caption message : string)
| ShowError (caption message : string).

(** A row of a [Treeview]: the [values] pair it was inserted with. *)
Definition row : Type := value * value.

Record ShortcutOverlay : Type := {
  ov_config : loc;
  ov_window : wm_state;
  ov_tree : list row }.

Record SettingsWindow : Type := {
  sw_config : loc;
  sw_window : wm_state;
  sw_hotkey_var : str;
  sw_tree : list row;
  (* positions of the selected rows, as [tree.index] reports them *)
  sw_selection : list nat }.

Record State : Type := {
  files : filesystem;
  hooks : list value;
  dialogs : list dialog;
  heap : gmap loc AppConfig;
  root_alive : bool;
  config_manager : ConfigManager;
  config : loc;
  overlay : ShortcutOverlay;
  settings_window : SettingsWindow }.

#[global] Instance AppConfig_inhabited : Inhabited AppConfig :=
  populate {| hotkey := VNone; shortcuts := [] |}.

Definition set_files (f : filesystem -> filesystem) (st : State) : State :=
  {| files := f (files st); hooks := hooks st; dialogs := dialogs st; heap := heap st;
     root_alive := root_alive st; config_manager := config_manager st; config := config st;
     overlay := overlay st; settings_window := settings_window st |}.

Definition set_hooks (f : list value -> list value) (st : State) : State :=
  {| files := files st; hooks := f (hooks st); dialogs := dialogs st; heap := heap st;
     root_alive := root_alive st; config_manager := config_manager st; config := config st;
     overlay := overlay st; settings_window := settings_window st |}.

Definition set_dialogs (f : list dialog -> list dialog) (st : State) : State :=
  {| files := files st; hooks := hooks st; dialogs := f (dialogs st); heap := heap st;
     root_alive := root_alive st; config_manager := config_manager st; config := config st;
     overlay := overlay st; settings_window := settings_window st |}.

Definition set_heap (f : gmap loc AppConfig -> gmap loc AppConfig) (st : State) : State :=
  {| files := files st; hooks := hooks st; dialogs := dialogs st; heap := f (heap st);
     root_alive := root_alive st; config_manager := config_manager st; config := config st;
     overlay := overlay st; settings_window := settings_window st |}.

Definition set_root_alive (b : bool) (st : State) : State :=
  {| files := files st; hooks := hooks st; dialogs := dialogs st; heap := heap st;
     root_alive := b; config_manager := config_manager st; config := config st;
     overlay := overlay st; settings_window := settings_window st |}.

Definition set_overlay (f : ShortcutOverlay -> ShortcutOverlay) (st : State) : State :=
  {| files := files st; hooks := hooks st; dialogs := dialogs st; heap := heap st;
     root_alive := root_alive st; config_manager := config_manager st; config := config st;
     overlay := f (overlay st); settings_window := settings_window st |}.

Definition set_settings_window (f : SettingsWindow -> SettingsWindow) (st : State) : State :=
  {| files := files st; hooks := hooks st; dialogs := dialogs st; heap := heap st;
     root_alive := root_alive st; config_manager := config_manager st; config := config st;
     overlay := overlay st; settings_window := f (settings_window st) |}.

Definition set_ov_window (s : wm_state) (o : ShortcutOverlay) : ShortcutOverlay :=
  {| ov_config := ov_config o; ov_window := s; ov_tree := ov_tree o |}.

Definition set_ov_tree (t : list row) (o : ShortcutOverlay) : ShortcutOverlay :=
  {| ov_config := ov_config o; ov_window := ov_window o; ov_tree := t |}.

Definition set_sw_window (s : wm_state) (w : SettingsWindow) : SettingsWindow :=
  {| sw_config := sw_config w; sw_window := s; sw_hotkey_var := sw_hotkey_var w;
     sw_tree := sw_tree w; sw_selection := sw_selection w |}.

Definition set_sw_hotkey_var (s : str) (w : SettingsWindow) : SettingsWindow :=
  {| sw_config := sw_config w; sw_window := sw_window w; sw_hotkey_var := s;
     sw_tree := sw_tree w; sw_selection := sw_selection w |}.

Definition set_sw_selection (sel : list nat) (w : SettingsWindow) : SettingsWindow :=
  {| sw_config := sw_config w; sw_window := sw_window w; sw_hotkey_var := sw_hotkey_var w;
     sw_tree := sw_tree w; sw_selection := sel |}.

(** Deleting every row of a tree also empties its selection. *)
Definition set_sw_tree (t : list row) (w : SettingsWindow) : SettingsWindow :=
  {| sw_config := sw_config w; sw_window := sw_window w; sw_hotkey_var := sw_hotkey_var w;
     sw_tree := t; sw_selection := [] |}.

Definition set_hotkey (h : value) (c : AppConfig) : AppConfig :=
  {| hotkey := h; shortcuts := shortcuts c |}.

Definition set_shortcuts (f : list ShortcutItem -> list ShortcutItem) (c : AppConfig) : AppConfig :=
  {| hotkey := hotkey c; shortcuts := f (shortcuts c) |}.

(** ** The monad of methods: state with exceptions; the state reached when an
    exception is raised is kept. *)

Definition M (A : Type) : Type := State -> State * result A.

#[global] Instance M_ret : MRet M := fun A a st => (st, Ok a).

#[global] Instance M_bind : MBind M := fun A B f m st =>
  match m st with
  | (st', Ok a) => f a st'
  | (st', Raise e) => (st', Raise e)
  end.

Definition get : M State := fun st => (st, Ok st).
Definition modify (f : State -> State) : M unit := fun st => (f st, Ok tt).
Definition raise {A : Type} (e : exn) : M A := fun st => (st, Raise e).

(** Reading through a reference. *)
Definition deref (l : loc) : M AppConfig := fun st => (st, Ok (heap st !!! l)).

(** Mutating the object a reference points to. *)
Definition mutate (l : loc) (f : AppConfig -> AppConfig) : M unit :=
  modify (set_heap (alter f l)).

Definition showinfo (caption message : string) : M unit :=
  modify (set_dialogs (fun ds => ds ++ [ShowInfo caption message])).

Definition showerror (caption message : string) : M unit :=
  modify (set_dialogs (fun ds => ds ++ [ShowError caption message])).

(** ** [str.strip()]: the code points for which [str.isspace] holds are
    stripped from both ends. *)

Definition is_space (c : N) : bool :=
  (((9 <=? c) && (c <=? 13)) || ((28 <=? c) && (c <=? 32)) || (c =? 133) || (c =? 160)
   || (c =? 5760) || ((8192 <=? c) && (c <=? 8202)) || (c =? 8232) || (c =? 8233)
   || (c =? 8239) || (c =? 8287) || (c =? 12288))%N.

Fixpoint lstrip_codes (cs : list N) : list N :=
  match cs with
  | [] => []
  | c :: rest => if is_space c then lstrip_codes rest else cs
  end.

Fixpoint rstrip_codes (cs : list N) : list N :=
  match cs with
  | [] => []
  | c :: rest =>
      match rstrip_codes rest with
      | [] => if is_space c then [] else [c]
      | kept => c :: kept
      end
  end.

Definition lstrip (s : str) : str := Str (lstrip_codes (codes s)).

Definition rstrip (s : str) : str := Str (rstrip_codes (codes s)).

Definition strip (s : str) : str := rstrip (lstrip s).

Arguments lstrip : simpl never.
Arguments rstrip : simpl never.
Arguments strip : simpl never.

Definition rows_of (c : AppConfig) : list row :=
  map (fun s => (title s, description s)) (shortcuts c).

(** ** Tk window operations *)

Definition withdraw (s : wm_state) : wm_state := Withdrawn.

(** [deiconify] maps the window; a maximised window stays maximised. *)
Definition deiconify (s : wm_state) : wm_state :=
  match s with
  | Zoomed => Zoomed
  | _ => Normal
  end.

Definition is_withdrawn (s : wm_state) : bool :=
  match s with
  | Withdrawn => true
  | _ => false
  end.

Section Application.

(** Two behaviours of libraries that the program relies on and does not
    define: the exception [keyboard.add_hotkey] raises for a hotkey it cannot
    parse, before it installs anything ([None] for a hotkey it accepts), and
    the string a Tk variable gives back for the value it was created with. *)
Context (keyboard_rejects : value -> option exn) (tk_str : value -> str).

(** [keyboard.unhook_all()] releases every binding the library holds. *)
Definition keyboard_unhook_all : M unit := modify (set_hooks (fun _ => [])).

Definition keyboard_add_hotkey (h : value) : M unit :=
  match keyboard_rejects h with
  | None => modify (set_hooks (fun hs => hs ++ [h]))
  | Some e => raise e
  end.

(** *** ShortcutOverlay *)

(** The part of [__init__] that the state keeps: the window is created and
    withdrawn, the tree is empty. *)
Definition ShortcutOverlay_init (cfg : loc) : ShortcutOverlay :=
  {| ov_config := cfg; ov_window := withdraw Normal; ov_tree := [] |}.

Definition ShortcutOverlay_refresh : M unit :=
  st ← get;
  c ← deref (ov_config (overlay st));
  modify (set_overlay (set_ov_tree (rows_of c))).

Definition ShortcutOverlay_hide : M unit :=
  modify (set_overlay (fun o => set_ov_window (withdraw (ov_window o)) o)).

Definition ShortcutOverlay_show : M unit :=
  ShortcutOverlay_refresh;;
  modify (set_overlay (fun o => set_ov_window (deiconify (ov_window o)) o)).

Definition ShortcutOverlay_toggle : M unit :=
  st ← get;
  if is_withdrawn (ov_window (overlay st)) then ShortcutOverlay_show
  else ShortcutOverlay_hide.

(** *** SettingsWindow *)

Definition SettingsWindow_refresh : M unit :=
  st ← get;
  c ← deref (sw_config (settings_window st));
  modify (set_settings_window (set_sw_tree (rows_of c))).

(** [__init__]: the entry starts with the configured hotkey and the closing
    [self.refresh()] fills the tree. *)
Definition SettingsWindow_init (cfg : loc) (h : gmap loc AppConfig) : SettingsWindow :=
  {| sw_config := cfg; sw_window := Normal;
     sw_hotkey_var := tk_str (hotkey (h !!! cfg));
     sw_tree := rows_of (h !!! cfg); sw_selection := [] |}.

(** The two arguments are what the user answers to the two [askstring]
    prompts, [None] for a cancelled one; the second prompt is only reached
    when the first answer is accepted. *)
Definition SettingsWindow_add_item (asked_title asked_description : option str) : M unit :=
  match asked_title with
  | None | Some (Str []) => mret tt
  | Some t =>
      match asked_description with
      | None => mret tt
      | Some d =>
          st ← get;
          mutate (sw_config (settings_window st))
                 (set_shortcuts (fun l => l ++ [entry t d]));;
          SettingsWindow_refresh
      end
  end.

Definition SettingsWindow_edit_item (asked_title asked_description : option str) : M unit :=
  st ← get;
  match sw_selection (settings_window st) with
  | [] => showinfo "Select" "Please select a shortcut to edit."
  | index :: _ =>
      c ← deref (sw_config (settings_window st));
      match shortcuts c !! index with
      | None => raise IndexError
      | Some current =>
          match asked_title with
          | None | Some (Str []) => mret tt
          | Some t =>
              match asked_description with
              | None => mret tt
              | Some d =>
                  mutate (sw_config (settings_window st))
                         (set_shortcuts (fun l => <[index := entry t d]> l));;
                  SettingsWindow_refresh
              end
          end
      end
  end.

Definition SettingsWindow_remove_item : M unit :=
  st ← get;
  match sw_selection (settings_window st) with
  | [] => showinfo "Select" "Please select a shortcut to remove."
  | index :: _ =>
      c ← deref (sw_config (settings_window st));
      if decide (index < length (shortcuts c)) then
        mutate (sw_config (settings_window st)) (set_shortcuts (delete index));;
        SettingsWindow_refresh
      else raise IndexError
  end.

Definition SettingsWindow_save (on_save : M unit) : M unit :=
  st ← get;
  let entered := strip (sw_hotkey_var (settings_window st)) in
  match entered with
  | Str [] => showerror "Hotkey" "Please enter a valid hotkey."
  | _ =>
      mutate (sw_config (settings_window st)) (set_hotkey (VStr entered));;
      on_save;;
      showinfo "Saved" "Settings saved. New hotkey is active now."
  end.

(** *** ShortcutApp *)

Definition ShortcutApp_register_hotkey : M unit :=
  keyboard_unhook_all;;
  st ← get;
  c ← deref (config st);
  keyboard_add_hotkey (hotkey c).

Definition ShortcutApp_toggle : M unit := ShortcutOverlay_toggle.

Definition ShortcutApp_show_overlay : M unit := ShortcutOverlay_show.

Definition ShortcutApp_open_settings : M unit :=
  SettingsWindow_refresh;;
  modify (set_settings_window (fun w => set_sw_window (deiconify (sw_window w)) w)).

(** [self.config_manager.save(config)]: the files change as [save] says,
    also when it raises. *)
Definition ConfigManager_save (c : AppConfig) : M unit := fun st =>
  let (fs, outcome) := save (config_manager st) c (files st) in
  (set_files (fun _ => fs) st, outcome).

Definition ShortcutApp_on_save : M unit :=
  st ← get;
  c ← deref (config st);
  ConfigManager_save c;;
  ShortcutApp_register_hotkey.

Definition ShortcutApp_on_close : M unit :=
  keyboard_unhook_all;;
  modify (set_root_alive false).

(** [ShortcutApp.__init__] in a fresh process: no binding is installed yet
    and no object allocated.  The loaded configuration becomes one object,
    and the same reference goes to the overlay and to the settings window.
    An exception here ends the program. *)
Definition ShortcutApp_init (cm : ConfigManager) (fs : filesystem) : result State :=
  loaded ← load cm fs;
  let l : loc := fresh (dom (∅ : gmap loc AppConfig)) in
  let h : gmap loc AppConfig := {[ l := loaded ]} in
  let st :=
    {| files := fs; hooks := []; dialogs := []; heap := h; root_alive := true;
       config_manager := cm; config := l;
       overlay := ShortcutOverlay_init l;
       settings_window := set_sw_window (withdraw Normal) (SettingsWindow_init l h) |} in
  match ShortcutApp_register_hotkey st with
  | (st', Ok _) => Ok st'
  | (_, Raise e) => Raise e
  end.

(** ** What the user can do to the running application *)

Inductive event : Type :=
| PressHotkey (combination : value)
| ClickShowShortcuts
| ClickHide
| ClickSettings
| CloseSettings
| TypeHotkey (text : str)
| SelectRows (positions : list nat)
| ClickAdd (asked_title asked_description : option str)
| ClickEdit (asked_title asked_description : option str)
| ClickRemove
| ClickSave
| CloseRoot.

(** The callback an event runs.  Tk reports an exception raised by a
    callback and goes on with the state as the callback left it. *)
Definition handler (ev : event) : M unit :=
  match ev with
  | PressHotkey _ => ShortcutApp_toggle
  | ClickShowShortcuts => ShortcutApp_show_overlay
  | ClickHide => ShortcutOverlay_hide
  | ClickSettings => ShortcutApp_open_settings
  | CloseSettings => modify (set_settings_window (fun w => set_sw_window (withdraw (sw_window w)) w))
  | TypeHotkey text => modify (set_settings_window (set_sw_hotkey_var text))
  | SelectRows positions => modify (set_settings_window (set_sw_selection positions))
  | ClickAdd t d => SettingsWindow_add_item t d
  | ClickEdit t d => SettingsWindow_edit_item t d
  | ClickRemove => SettingsWindow_remove_item
  | ClickSave => SettingsWindow_save ShortcutApp_on_save
  | CloseRoot => ShortcutApp_on_close
  end.

(** When an event can happen: a hotkey fires only if it is bound, and only
    rows that the settings tree has can be selected. *)
Definition enabled (st : State) (ev : event) : Prop :=
  match ev with
  | PressHotkey combination => combination ∈ hooks st
  | SelectRows positions =>
      Forall (fun i => i < length (sw_tree (settings_window st))) positions
  | _ => True
  end.

(** A session: the callbacks of a sequence of events, one after the other. *)
Fixpoint run_events (evs : list event) (st : State) : State :=
  match evs with
  | [] => st
  | ev :: rest => run_events rest (fst (handler ev st))
  end.

Inductive step (st : State) (ev : event) : State -> Prop :=
| step_handler :
    root_alive st = true -> enabled st ev ->
    step st ev (fst (handler ev st)).

Inductive reachable (cm : ConfigManager) (fs : filesystem) : State -> Prop :=
| reachable_init st :
    ShortcutApp_init cm fs = Ok st -> reachable cm fs st
| reachable_step st ev st' :
    reachable cm fs st -> step st ev st' -> reachable cm fs st'.

End Application.

#[global] Instance enabled_dec (st : State) (ev : event) : Decision (enabled st ev).
Proof. destruct ev; cbn; apply _. Defined.

(** ** Invariants of the running application *)

(** The three references are one, the object they point to is allocated, the
    settings tree shows the current entries, only rows of that tree are
    selected, and the [keyboard] library holds at most one binding. *)
Record consistent (cm : ConfigManager) (st : State) : Prop := {
  consistent_manager : config_manager st = cm;
  consistent_overlay : ov_config (overlay st) = config st;
  consistent_settings : sw_config (settings_window st) = config st;
  consistent_allocated : is_Some (heap st !! config st);
  consistent_tree :
    sw_tree (settings_window st) = rows_of (heap st !!! config st);
  consistent_selection :
    Forall (fun i => i < length (sw_tree (settings_window st)))
           (sw_selection (settings_window st));
  consistent_hooks : length (hooks st) <= 1 }.

(** The file system is the one the program started with, or that one with
    the configuration file written by a save whose hotkey is a non-empty
    string. *)
Definition saved_with_hotkey (cm : ConfigManager) (fs0 fs : filesystem) : Prop :=
  fs = fs0
  \/ exists (key : str) (entries : list ShortcutItem),
      key <> ""
      /\ fs = fst (save cm {| hotkey := VStr key; shortcuts := entries |} fs0).

(** ** A concrete platform and concrete states, for examples *)

(** A [keyboard] that accepts every non-empty string. *)
Definition rejects_empty (h : value) : option exn :=
  match h with
  | VStr (Str (_ :: _)) => None
  | VStr (Str []) => Some ValueError
  | _ => Some TypeError
  end.

Definition str_of (v : value) : str :=
  match v with
  | VStr s => s
  | _ => ""
  end.

Definition example_manager : ConfigManager := {| path := "config.json" |}.

(** The application as it starts when there is no configuration file. *)
Definition example_state : State :=
  {| files := ∅; hooks := [VStr "ctrl+shift+s"]; dialogs := [];
     heap := {[ 0 := seeded_config ]}; root_alive := true;
     config_manager := example_manager; config := 0;
     overlay := {| ov_config := 0; ov_window := Withdrawn; ov_tree := [] |};
     settings_window :=
       {| sw_config := 0; sw_window := Withdrawn; sw_hotkey_var := "ctrl+shift+s";
          sw_tree := rows_of seeded_config; sw_selection := [] |} |}.

(** A configuration file with a single entry. *)
Definition one_entry_files : filesystem :=
  {[ "config.json"%string :=
       JsonText (payload (config_of "ctrl+alt+k" [("Win+D", "Show desktop")])) ]}.

(** The application as it starts from [one_entry_files], and then with its
    only row selected in the settings tree. *)
Definition one_entry_state : State :=
  {| files := one_entry_files; hooks := [VStr "ctrl+alt+k"]; dialogs := [];
     heap := {[ 0 := config_of "ctrl+alt+k" [("Win+D", "Show desktop")] ]};
     root_alive := true;
     config_manager := example_manager; config := 0;
     overlay := {| ov_config := 0; ov_window := Withdrawn; ov_tree := [] |};
     settings_window :=
       {| sw_config := 0; sw_window := Withdrawn; sw_hotkey_var := "ctrl+alt+k";
          sw_tree := [(VStr "Win+D", VStr "Show desktop")]; sw_selection := [] |} |}.

Definition one_entry_selected : State :=
  set_settings_window (set_sw_selection [0]) one_entry_state.

(** The initial application after the user has blanked the hotkey entry. *)
Definition blank_entry_state : State :=
  set_settings_window (set_sw_hotkey_var "   ") example_state.

(** The initial application after its configuration object got another
    hotkey, before the binding is renewed. *)
Definition rebound_state : State :=
  set_heap (alter (set_hotkey (VStr "ctrl+alt+k")) 0) example_state.

(** ** Notions for the further properties *)

(** A string of whitespace only, the empty string included. *)
Definition all_space (s : str) : bool := forallb is_space (codes s).

(** An entry whose title is a non-empty string, as the editor's prompts
    demand of a title before they store it. *)
Definition titled (item : ShortcutItem) : bool :=
  match title item with
  | VStr (Str (_ :: _)) => true
  | _ => false
  end.

(** The configuration object after the callback of an event, given the
    object before it: what the callback does to the entries and the hotkey,
    read off the selection and the hotkey entry of the state it starts in. *)
Definition config_after (st : State) (ev : event) (c : AppConfig) : AppConfig :=
  match ev with
  | ClickAdd (Some (Str (a :: t))) (Some d) =>
      set_shortcuts (fun l => l ++ [entry (Str (a :: t)) d]) c
  | ClickEdit (Some (Str (a :: t))) (Some d) =>
      match sw_selection (settings_window st) with
      | index :: _ => set_shortcuts (fun l => <[index := entry (Str (a :: t)) d]> l) c
      | [] => c
      end
  | ClickRemove =>
      match sw_selection (settings_window st) with
      | index :: _ => set_shortcuts (delete index) c
      | [] => c
      end
  | ClickSave =>
      match strip (sw_hotkey_var (settings_window st)) with
      | Str [] => c
      | entered => set_hotkey (VStr entered) c
      end
  | _ => c
  end.

(** The events that are clicks on the three buttons that edit the list. *)
Definition edits_entries (ev : event) : bool :=
  match ev with
  | ClickAdd _ _ | ClickEdit _ _ | ClickRemove => true
  | _ => false
  end.

(** A document without the fields that [load] never reads: of the object the
    fields ["hotkey"] and ["shortcuts"] stay, and of each object in the list
    of entries the fields ["title"] and ["description"]. *)
Definition keep_fields (names : list str) (fields : list (str * value))
    : list (str * value) :=
  filter (fun kv => fst kv ∈ names) fields.

Definition prune_entry (item : value) : value :=
  match item with
  | VDict fields => VDict (keep_fields ["title"; "description"] fields)
  | _ => item
  end.

Definition prune_listed (listed : value) : value :=
  match listed with
  | VList items => VList (map prune_entry items)
  | _ => listed
  end.

Definition prune_field (kv : str * value) : str * value :=
  if decide (fst kv = "shortcuts") then (fst kv, prune_listed (snd kv)) else kv.

Definition prune (doc : value) : value :=
  match doc with
  | VDict fields => VDict (map prune_field (keep_fields ["hotkey"; "shortcuts"] fields))
  | _ => doc
  end.

(** A [keyboard] that, besides, knows no key called [nokey]. *)
Definition rejects_nokey (h : value) : option exn :=
  if decide (h = VStr "ctrl+nokey") then Some ValueError else rejects_empty h.

(** The initial application with ["ctrl+nokey"] typed into the hotkey entry,
    and the initial application after its root window was closed. *)
Definition nokey_state : State :=
  set_settings_window (set_sw_hotkey_var "ctrl+nokey") example_state.

Definition closed_state : State :=
  set_root_alive false (set_hooks (fun _ => []) example_state).

(** A configuration file whose second entry has no description. *)
Definition broken_entry_files : filesystem :=
  {[ "config.json"%string :=
       JsonText (VDict [("shortcuts",
                         VList [item_to_json (entry "Win+E" "Open File Explorer");
                                VDict [("title", VStr "Win+L")];
                                VInt 7])]) ]}.

(** The initial application with a hotkey typed between blanks, and then
    after a click on the save button. *)
Definition typed_state : State :=
  set_settings_window (set_sw_hotkey_var " ctrl+alt+k ") example_state.

Definition saved_state : State := fst (handler rejects_empty ClickSave typed_state).

(** A configuration file that is valid JSON and whose entry has the
    description ["\ud800"], a surrogate on its own; the application as it
    starts from this file, and then with another hotkey typed. *)
Definition surrogate_files : filesystem :=
  {[ "config.json"%string :=
       JsonText (payload (config_of "ctrl+alt+k" [("Win+D", Str [55296%N])])) ]}.

Definition surrogate_state : State :=
  {| files := surrogate_files; hooks := [VStr "ctrl+alt+k"]; dialogs := [];
     heap := {[ 0 := config_of "ctrl+alt+k" [("Win+D", Str [55296%N])] ]};
     root_alive := true;
     config_manager := example_manager; config := 0;
     overlay := {| ov_config := 0; ov_window := Withdrawn; ov_tree := [] |};
     settings_window :=
       {| sw_config := 0; sw_window := Withdrawn; sw_hotkey_var := "ctrl+alt+k";
          sw_tree := [(VStr "Win+D", VStr (Str [55296%N]))]; sw_selection := [] |} |}.

Definition surrogate_typed_state : State :=
  set_settings_window (set_sw_hotkey_var "f9") surrogate_state.

(** That application after a click on the save button, and a document with
    unknown fields in the object and in its entry. *)
Definition surrogate_saved_state : State :=
  fst (handler rejects_empty ClickSave surrogate_typed_state).

Definition annotated_document : value :=
  VDict [("theme", VStr "dark");
         ("shortcuts",
          VList [VDict [("title", VStr "Win+D"); ("icon", VInt 1);
                        ("description", VStr "Show desktop")]]);
         ("version", VInt 2);
         ("hotkey", VStr "ctrl+alt+k")].

(** * Properties *)

(** ** Persistence *)

Lemma item_of_to_json (item : ShortcutItem) : item_of_json (item_to_json item) = Ok item.
Proof. by destruct item. Qed.

Lemma comprehension_item_to_json (entries : list ShortcutItem) :
  comprehension item_of_json (map item_to_json entries) = Ok entries.
Proof.
  induction entries as [|item entries IH]; [done|].
  cbn [map comprehension]. rewrite item_of_to_json. cbn. by rewrite IH.
Qed.

Lemma load_payload (self : ConfigManager) (fs : filesystem) (c : AppConfig) :
  fs !! path self = Some (JsonText (payload c)) -> load self fs = Ok c.
Proof.
  intros Hfile. unfold load. rewrite Hfile. cbn.
  repeat (case_decide; try done). cbn.
  rewrite comprehension_item_to_json. by destruct c.
Qed.

Lemma encodable_payload (c : AppConfig) : encodable (payload c) = config_encodable c.
Proof.
  unfold config_encodable, payload. cbn. rewrite andb_true_r. f_equal.
  induction (shortcuts c) as [|item items IH]; [done|].
  cbn. rewrite IH. by rewrite andb_true_r.
Qed.

(** The two ways [save] ends. *)
Lemma save_encodable (self : ConfigManager) (fs : filesystem) (c : AppConfig) :
  config_encodable c = true ->
  save self c fs = (<[path self := JsonText (payload c)]> fs, Ok tt).
Proof. intros Hc. unfold save, json_dump. by rewrite encodable_payload, Hc. Qed.

Lemma save_not_encodable (self : ConfigManager) (fs : filesystem) (c : AppConfig) :
  config_encodable c = false ->
  save self c fs = (<[path self := TruncatedText (payload c)]> fs, Raise UnicodeEncodeError).
Proof. intros Hc. unfold save, json_dump. by rewrite encodable_payload, Hc. Qed.

Lemma load_save (self : ConfigManager) (fs : filesystem) (c : AppConfig) :
  config_encodable c = true -> load self (fst (save self c fs)) = Ok c.
Proof.
  intros Hc. rewrite (save_encodable self fs c Hc). apply load_payload.
  apply lookup_insert_eq.
Qed.

Lemma load_failed_save (self : ConfigManager) (fs : filesystem) (c : AppConfig) :
  config_encodable c = false -> load self (fst (save self c fs)) = Raise JSONDecodeError.
Proof.
  intros Hc. rewrite (save_not_encodable self fs c Hc). unfold load. cbn.
  by rewrite lookup_insert_eq.
Qed.

Lemma config_of_encodable (key : str) (entries : list (str * str)) :
  utf8_encodable key = true ->
  Forall (fun td => utf8_encodable (fst td) = true /\ utf8_encodable (snd td) = true) entries ->
  config_encodable (config_of key entries) = true.
Proof.
  intros Hkey Hentries. unfold config_encodable. cbn. rewrite Hkey. cbn.
  induction Hentries as [|[t d] entries [Ht Hd] _ IH]; [done|].
  cbn in *. by rewrite Ht, Hd, IH.
Qed.

(** C1, the claim as it stands fails.  A file with the hotkey ["\ud800"],
    an escape that is valid JSON, loads to a configuration whose hotkey is
    the string of that one surrogate.  Saving this configuration raises
    [UnicodeEncodeError], and the file it leaves no longer loads. *)
Lemma save_lone_surrogate_raises :
  load example_manager
    {[ "config.json"%string := JsonText (VDict [("hotkey", VStr (Str [55296%N]))]) ]}
  = Ok (config_of (Str [55296%N]) [])
  /\ snd (save example_manager (config_of (Str [55296%N]) []) ∅) = Raise UnicodeEncodeError
  /\ load example_manager (fst (save example_manager (config_of (Str [55296%N]) []) ∅))
     = Raise JSONDecodeError.
Proof. repeat split; reflexivity. Qed.

(** C1, amended.  Saving a configuration made of a hotkey string and a list
    of title/description pairs, none of them with a surrogate code point,
    completes, and loading from the same path then gives back a
    configuration with the same hotkey and the same entries in the same
    order. *)
Theorem save_then_load_roundtrip (self : ConfigManager) (fs : filesystem)
    (key : str) (entries : list (str * str)) :
  utf8_encodable key = true ->
  Forall (fun td => utf8_encodable (fst td) = true /\ utf8_encodable (snd td) = true) entries ->
  snd (save self (config_of key entries) fs) = Ok tt
  /\ exists c,
      load self (fst (save self (config_of key entries) fs)) = Ok c
      /\ hotkey c = VStr key
      /\ shortcuts c = map (fun td => entry (fst td) (snd td)) entries.
Proof.
  intros Hkey Hentries.
  pose proof (config_of_encodable key entries Hkey Hentries) as Hc.
  split.
  - by rewrite (save_encodable self fs _ Hc).
  - exists (config_of key entries). split; [|done].
    rewrite (save_encodable self fs _ Hc). apply load_payload.
    apply lookup_insert_eq.
Qed.

Lemma save_then_load_roundtrip_witness :
  snd (save example_manager
         (config_of "ctrl+alt+k" [("Win+D", "Show desktop")]) ∅) = Ok tt
  /\ exists c,
      load example_manager
        (fst (save example_manager
                (config_of "ctrl+alt+k" [("Win+D", "Show desktop")]) ∅)) = Ok c
      /\ hotkey c = VStr "ctrl+alt+k"
      /\ shortcuts c = [entry "Win+D" "Show desktop"].
Proof.
  apply (save_then_load_roundtrip example_manager ∅ "ctrl+alt+k"
           [("Win+D", "Show desktop")]).
  - reflexivity.
  - repeat constructor.
Defined.

(** C2. When no file exists at the path, [load] returns the hotkey
    ["ctrl+shift+s"] and exactly the two seeded entries, Win+E before
    Win+L. *)
Theorem load_missing_file_defaults (self : ConfigManager) (fs : filesystem) :
  fs !! path self = None ->
  load self fs
  = Ok (config_of "ctrl+shift+s"
          [("Win+E", "Open File Explorer"); ("Win+L", "Lock the PC")]).
Proof. intros Hmissing. unfold load. by rewrite Hmissing. Qed.

Lemma load_missing_file_defaults_witness :
  load {| path := "config.json" |} ∅
  = Ok (config_of "ctrl+shift+s"
          [("Win+E", "Open File Explorer"); ("Win+L", "Lock the PC")]).
Proof. apply (load_missing_file_defaults {| path := "config.json" |} ∅). reflexivity. Defined.

Lemma item_of_json_ok (item : value) :
  item_ok item = true <-> exists x, item_of_json item = Ok x.
Proof.
  destruct item as [| | | | |items|fields]; cbn;
    try (split; [done | by intros [x ?]]).
  unfold item_of_json. cbn.
  destruct (dict_lookup "title" fields) as [t|]; cbn;
    [|split; [done | by intros [x ?]]].
  destruct (dict_lookup "description" fields) as [d|]; cbn.
  - split; [by eexists | done].
  - split; [done | by intros [x ?]].
Qed.

Lemma comprehension_ok (items : list value) :
  forallb item_ok items = true <-> exists xs, comprehension item_of_json items = Ok xs.
Proof.
  induction items as [|item items IH]; cbn [forallb comprehension].
  - split; [by eexists | done].
  - rewrite andb_true_iff, IH, item_of_json_ok. split.
    + intros [[x Hx] [xs Hxs]]. rewrite Hx. cbn. rewrite Hxs. by eexists.
    + intros [ys Hys]. destruct (item_of_json item) as [x|e]; [|done].
      cbn in Hys. destruct (comprehension item_of_json items) as [xs|e]; [|done].
      split; by eexists.
Qed.

Lemma iterates_over_items_ok (listed : value) :
  iterates_over_items listed = true
  <-> exists xs, (py_iter listed ≫= comprehension item_of_json) = Ok xs.
Proof.
  destruct listed as [| | | |s|items|fields]; cbn;
    try (split; [done | by intros [x ?]]).
  - destruct s as [[|c s]]; cbn; [split; [by eexists | done]|].
    split; [done | by intros [x ?]].
  - apply comprehension_ok.
  - destruct fields as [|[k v] fields]; cbn; [split; [by eexists | done]|].
    split; [done | by intros [x ?]].
Qed.

(** What [load] does with a document that is an object, in one equation. *)
Lemma load_object (self : ConfigManager) (fs : filesystem) (fields : list (str * value)) :
  fs !! path self = Some (JsonText (VDict fields)) ->
  load self fs
  = (entries ← py_iter (default (VList []) (dict_lookup "shortcuts" fields))
                ≫= comprehension item_of_json;
     mret {| hotkey := default default_hotkey (dict_lookup "hotkey" fields);
             shortcuts := entries |}).
Proof.
  intros Hfile. unfold load. rewrite Hfile. cbn.
  destruct (dict_lookup "shortcuts" fields) as [listed|]; cbn.
  - destruct (py_iter listed) as [items|e]; cbn; [|done].
    destruct (comprehension item_of_json items) as [entries|e]; cbn; [|done].
    by destruct (dict_lookup "hotkey" fields).
  - by destruct (dict_lookup "hotkey" fields).
Qed.

Lemma load_well_structured (self : ConfigManager) (fs : filesystem) (text : file_text) :
  fs !! path self = Some text ->
  well_structured text = true <-> exists c, load self fs = Ok c.
Proof.
  intros Hfile. destruct text as [doc|raw|cut];
    [|unfold load; rewrite Hfile; cbn; split; [done | by intros [c ?]]..].
  - destruct doc as [| | | | | |fields];
      try (unfold load; rewrite Hfile; cbn; split; [done | by intros [c ?]]).
    rewrite (load_object _ _ _ Hfile). cbn [well_structured].
    destruct (dict_lookup "shortcuts" fields) as [listed|].
    + change (default (VList []) (Some listed)) with listed.
      rewrite iterates_over_items_ok. split.
      * intros [xs Hxs]. rewrite Hxs. by eexists.
      * intros [c Hc].
        destruct (py_iter listed ≫= comprehension item_of_json) as [xs|e]; [by eexists | done].
    + split; [by eexists | done].
Qed.

(** C3, the claim as it stands fails: a file whose text is not JSON, and a
    file whose JSON document is not an object, make [load] raise. *)
Lemma load_malformed_file_raises :
  load {| path := "config.json" |} {[ "config.json"%string := BadText "{" ]}
  = Raise JSONDecodeError
  /\ load {| path := "config.json" |} {[ "config.json"%string := JsonText (VList []) ]}
     = Raise AttributeError.
Proof. split; reflexivity. Qed.

(** C3, amended. A missing file gives the default configuration.  A file
    that exists is loaded without any fallback: [load] succeeds exactly when
    the content has the expected structure, and raises an exception when it
    has not. *)
Theorem load_outcome (self : ConfigManager) (fs : filesystem) :
  match fs !! path self with
  | None => load self fs = Ok seeded_config
  | Some text =>
      if well_structured text then exists c, load self fs = Ok c
      else exists e, load self fs = Raise e
  end.
Proof.
  destruct (fs !! path self) as [text|] eqn:Hfile.
  - pose proof (load_well_structured self fs text Hfile) as Hiff.
    destruct (well_structured text).
    + by apply Hiff.
    + destruct (load self fs) as [c|e]; [|by eexists].
      assert (false = true) by (apply Hiff; by eexists). done.
  - unfold load. by rewrite Hfile.
Qed.

(** C10, the claim as it stands fails: a file that exists, parses and has
    no ["hotkey"] can still make [load] raise, here on a ["shortcuts"] that
    is a number. *)
Lemma load_without_hotkey_raises :
  dict_lookup "hotkey" [("shortcuts", VInt 3)] = None
  /\ load example_manager
       {[ "config.json"%string := JsonText (VDict [("shortcuts", VInt 3)]) ]}
     = Raise TypeError.
Proof. split; reflexivity. Qed.

(** C10, amended. A file that parses to an object of the expected structure
    but has no ["hotkey"] loads with the hotkey ["ctrl+shift+s"]; one that
    has no ["shortcuts"] loads with an empty entry list, not the two seeded
    entries. *)
Theorem load_absent_fields (self : ConfigManager) (fs : filesystem)
    (fields : list (str * value)) :
  fs !! path self = Some (JsonText (VDict fields)) ->
  (dict_lookup "hotkey" fields = None ->
   well_structured (JsonText (VDict fields)) = true ->
   exists c, load self fs = Ok c /\ hotkey c = VStr "ctrl+shift+s")
  /\ (dict_lookup "shortcuts" fields = None ->
      exists c, load self fs = Ok c /\ shortcuts c = []
                /\ shortcuts c <> shortcuts seeded_config).
Proof.
  intros Hfile. split.
  - intros Hkey Hok. apply (load_well_structured _ _ _ Hfile) in Hok as [c Hc].
    exists c. split; [done|].
    rewrite (load_object _ _ _ Hfile), Hkey in Hc.
    destruct (py_iter _ ≫= comprehension item_of_json) as [xs|e]; [|done].
    cbn in Hc. by inversion Hc.
  - intros Hlist. rewrite (load_object _ _ _ Hfile), Hlist. cbn.
    eexists. split; [done|]. by cbn.
Qed.

Lemma load_absent_fields_witness :
  (exists c,
     load example_manager
       {[ "config.json"%string :=
            JsonText (VDict [("shortcuts",
                              VList [item_to_json (entry "Win+D" "Show desktop")])]) ]}
     = Ok c
     /\ hotkey c = VStr "ctrl+shift+s")
  /\ (exists c,
        load example_manager
          {[ "config.json"%string := JsonText (VDict [("hotkey", VStr "f9")]) ]} = Ok c
        /\ shortcuts c = [] /\ shortcuts c <> shortcuts seeded_config).
Proof.
  split.
  - apply (load_absent_fields example_manager
             {[ "config.json"%string :=
                  JsonText (VDict [("shortcuts",
                                    VList [item_to_json (entry "Win+D" "Show desktop")])]) ]}
             [("shortcuts", VList [item_to_json (entry "Win+D" "Show desktop")])]);
      reflexivity.
  - apply (load_absent_fields example_manager
             {[ "config.json"%string := JsonText (VDict [("hotkey", VStr "f9")]) ]}
             [("hotkey", VStr "f9")]); reflexivity.
Defined.

(** ** The application *)

Ltac run :=
  unfold handler, ShortcutApp_toggle, ShortcutApp_show_overlay, ShortcutApp_open_settings,
    ShortcutApp_on_save, ShortcutApp_on_close, ShortcutApp_register_hotkey,
    SettingsWindow_add_item, SettingsWindow_edit_item, SettingsWindow_remove_item,
    SettingsWindow_save, SettingsWindow_refresh,
    ShortcutOverlay_toggle, ShortcutOverlay_show, ShortcutOverlay_hide, ShortcutOverlay_refresh,
    keyboard_unhook_all, keyboard_add_hotkey, ConfigManager_save,
    mutate, showinfo, showerror, deref, get, modify, raise, mbind, mret, M_bind, M_ret;
  cbn.

Lemma lookup_total_alter_allocated (h : gmap loc AppConfig) (l : loc)
    (f : AppConfig -> AppConfig) :
  is_Some (h !! l) -> alter f l h !!! l = f (h !!! l).
Proof.
  intros [c Hc]. rewrite lookup_total_alter_eq, (lookup_total_correct h l c Hc).
  by rewrite Hc.
Qed.

Lemma rows_of_set_hotkey (h : value) (c : AppConfig) : rows_of (set_hotkey h c) = rows_of c.
Proof. done. Qed.

Lemma length_rows_of (c : AppConfig) : length (rows_of c) = length (shortcuts c).
Proof. unfold rows_of. by rewrite length_map. Qed.

(** A second save leaves nothing of the first. *)
Lemma save_save (self : ConfigManager) (c1 c2 : AppConfig) (fs : filesystem) :
  fst (save self c2 (fst (save self c1 fs))) = fst (save self c2 fs).
Proof.
  unfold save, json_dump.
  destruct (encodable (payload c1)), (encodable (payload c2)); cbn;
    apply insert_insert_eq.
Qed.

Section ApplicationProperties.

Context (keyboard_rejects : value -> option exn) (tk_str : value -> str).

Lemma register_hotkey_eq (st : State) :
  ShortcutApp_register_hotkey keyboard_rejects st
  = match keyboard_rejects (hotkey (heap st !!! config st)) with
    | None => (set_hooks (fun _ => [hotkey (heap st !!! config st)]) st, Ok tt)
    | Some e => (set_hooks (fun _ => []) st, Raise e)
    end.
Proof. run. by destruct (keyboard_rejects _). Qed.

Lemma init_consistent (cm : ConfigManager) (fs : filesystem) (st : State) :
  ShortcutApp_init keyboard_rejects tk_str cm fs = Ok st ->
  consistent cm st /\ files st = fs /\ root_alive st = true.
Proof.
  unfold ShortcutApp_init. destruct (load cm fs) as [loaded|e]; [|done]. cbn.
  rewrite register_hotkey_eq. cbn.
  destruct (keyboard_rejects _); [done|].
  intros [= <-]. split; [|done].
  by split.
Qed.

(** What the save button does once the entry is not blank, in a state where
    the settings window and the application share the configuration: the
    hotkey goes into the object, the file is written, and only a completed
    save goes on to renew the binding. *)
Lemma save_click_eq (cm : ConfigManager) (st : State) (c : N) (entered : list N) :
  consistent cm st ->
  strip (sw_hotkey_var (settings_window st)) = Str (c :: entered) ->
  handler keyboard_rejects ClickSave st
  = let new := VStr (Str (c :: entered)) in
    let saved := set_hotkey new (heap st !!! config st) in
    let written :=
      set_files (fun _ => fst (save cm saved (files st)))
        (set_heap (alter (set_hotkey new) (config st)) st) in
    if config_encodable saved then
      match keyboard_rejects new with
      | None =>
          (set_dialogs
             (fun ds => ds ++ [ShowInfo "Saved" "Settings saved. New hotkey is active now."])
             (set_hooks (fun _ => [new]) written), Ok tt)
      | Some e => (set_hooks (fun _ => []) written, Raise e)
      end
    else (written, Raise UnicodeEncodeError).
Proof.
  intros [Hcm Hov Hsw Halloc Htree Hsel Hhooks] Hentered.
  unfold handler, SettingsWindow_save, ShortcutApp_on_save, ConfigManager_save,
    ShortcutApp_register_hotkey, keyboard_unhook_all, keyboard_add_hotkey,
    mutate, showinfo, deref, get, modify, raise, mbind, mret, M_bind, M_ret.
  rewrite Hentered. cbn -[save].
  rewrite Hsw, Hcm, lookup_total_alter_allocated by done.
  destruct (config_encodable (set_hotkey (VStr (Str (c :: entered))) (heap st !!! config st)))
    eqn:Hc.
  - rewrite (save_encodable cm _ _ Hc). cbn.
    rewrite lookup_total_alter_allocated by done. cbn.
    by destruct (keyboard_rejects _).
  - by rewrite (save_not_encodable cm _ _ Hc).
Qed.

Local Ltac ok H := cbn; split; cbn; rewrite ?H; done.
Local Ltac ok2 H H' := cbn; split; cbn; rewrite ?H, ?H'; done.

Lemma handler_consistent (cm : ConfigManager) (ev : event) (st : State) :
  consistent cm st -> enabled st ev ->
  consistent cm (fst (handler keyboard_rejects ev st)).
Proof.
  intros Hst Hen. pose proof Hst as [Hcm Hov Hsw Halloc Htree Hsel Hhooks].
  assert (Hheap : forall f, is_Some (alter f (config st) (heap st) !! config st))
    by (intros f; by apply lookup_alter_is_Some).
  destruct ev as [combination| | | | |text|positions|t d|t d| | |];
    try (run; ok Hsw).
  - (* the hotkey: show or hide *)
    run. destruct (is_withdrawn _); ok Hsw.
  - (* add *)
    destruct t as [[[|c t]]|], d as [d|]; run; ok Hsw.
  - (* edit *)
    run. destruct (sw_selection _) as [|index rest] eqn:Hselect; [ok2 Hsw Hselect|].
    cbn. destruct (shortcuts _ !! index) as [current|]; [|ok2 Hsw Hselect].
    destruct t as [[[|c t]]|], d as [d|]; ok2 Hsw Hselect.
  - (* remove *)
    run. destruct (sw_selection _) as [|index rest] eqn:Hselect; [ok2 Hsw Hselect|].
    cbn. case_decide; ok2 Hsw Hselect.
  - (* save: the tree still shows the entries, one binding at most *)
    destruct (strip (sw_hotkey_var (settings_window st))) as [[|c entered]] eqn:Hentered.
    { run. rewrite Hentered. ok Hsw. }
    rewrite (save_click_eq cm st c entered Hst Hentered). cbn zeta.
    destruct (config_encodable _); [destruct (keyboard_rejects _)|];
      cbn; split; cbn; rewrite ?Hsw; try done; try lia;
      by rewrite lookup_total_alter_allocated.
  - (* closing the root window *)
    run. split; cbn; try done. lia.
Qed.

Lemma reachable_consistent (cm : ConfigManager) (fs : filesystem) (st : State) :
  reachable keyboard_rejects tk_str cm fs st -> consistent cm st.
Proof.
  induction 1 as [st Hinit|st ev st' _ IH Hstep].
  - by apply init_consistent in Hinit as [? _].
  - destruct Hstep. by apply handler_consistent.
Qed.

(** The only handler that writes a file is the save button's, and what it
    writes is the shared configuration with the entered hotkey. *)
Lemma handler_files (cm : ConfigManager) (ev : event) (st : State) :
  consistent cm st ->
  files (fst (handler keyboard_rejects ev st)) = files st
  \/ exists (key : str) (entries : list ShortcutItem),
      key <> ""
      /\ files (fst (handler keyboard_rejects ev st))
         = fst (save cm {| hotkey := VStr key; shortcuts := entries |} (files st)).
Proof.
  intros Hst.
  destruct ev as [combination| | | | |text|positions|t d|t d| | |];
    try (left; run; done).
  - left. run. by destruct (is_withdrawn _).
  - left. by destruct t as [[[|c t]]|], d as [d|].
  - left. run. destruct (sw_selection _) as [|index rest]; [done|].
    cbn. destruct (shortcuts _ !! index) as [current|]; [|done].
    by destruct t as [[[|c t]]|], d as [d|].
  - left. run. destruct (sw_selection _) as [|index rest]; [done|].
    cbn. by case_decide.
  - destruct (strip (sw_hotkey_var (settings_window st))) as [[|c entered]] eqn:Hentered.
    { left. run. by rewrite Hentered. }
    right. exists (Str (c :: entered)), (shortcuts (heap st !!! config st)).
    split; [done|].
    rewrite (save_click_eq cm st c entered Hst Hentered). cbn zeta.
    by destruct (config_encodable _); [destruct (keyboard_rejects _)|].
Qed.

Lemma saved_with_hotkey_step (cm : ConfigManager) (fs0 fs : filesystem)
    (key : str) (entries : list ShortcutItem) :
  saved_with_hotkey cm fs0 fs -> key <> "" ->
  saved_with_hotkey cm fs0
    (fst (save cm {| hotkey := VStr key; shortcuts := entries |} fs)).
Proof.
  intros [->|(key0 & entries0 & _ & ->)] Hkey; right; exists key, entries.
  - done.
  - split; [done|]. apply save_save.
Qed.

Lemma reachable_files (cm : ConfigManager) (fs0 : filesystem) (st : State) :
  reachable keyboard_rejects tk_str cm fs0 st -> saved_with_hotkey cm fs0 (files st).
Proof.
  induction 1 as [st Hinit|st ev st' Hreach IH Hstep].
  - apply init_consistent in Hinit as (_ & -> & _). by left.
  - destruct Hstep as [_ _].
    destruct (handler_files cm ev st (reachable_consistent _ _ _ Hreach))
      as [->|(key & entries & Hkey & ->)]; [done|].
    by apply saved_with_hotkey_step.
Qed.

(** C4. When the entered hotkey is empty after stripping, [save] shows the
    error box and does nothing else: the configuration object, the files and
    the keyboard bindings are as before, whatever the save callback is. *)
Theorem save_rejects_empty_hotkey (on_save : M unit) (st : State) :
  strip (sw_hotkey_var (settings_window st)) = "" ->
  SettingsWindow_save on_save st
  = (set_dialogs (fun ds => ds ++ [ShowError "Hotkey" "Please enter a valid hotkey."]) st,
     Ok tt)
  /\ dialogs (fst (SettingsWindow_save on_save st))
     = dialogs st ++ [ShowError "Hotkey" "Please enter a valid hotkey."]
  /\ heap (fst (SettingsWindow_save on_save st)) = heap st
  /\ files (fst (SettingsWindow_save on_save st)) = files st
  /\ hooks (fst (SettingsWindow_save on_save st)) = hooks st.
Proof.
  intros Hempty.
  assert (SettingsWindow_save on_save st
          = (set_dialogs (fun ds => ds ++ [ShowError "Hotkey" "Please enter a valid hotkey."]) st,
             Ok tt)) as ->.
  { run. by rewrite Hempty. }
  done.
Qed.

(** C5. In every state the application reaches, the file system is the
    initial one or the initial one with the configuration file written with
    a non-empty hotkey string; and every step either leaves the files alone
    or writes the configuration file with a non-empty hotkey string, which
    is what the file loads to once the save has completed. *)
Theorem saved_hotkey_is_nonempty (cm : ConfigManager) (fs0 : filesystem) (st : State) :
  reachable keyboard_rejects tk_str cm fs0 st ->
  saved_with_hotkey cm fs0 (files st)
  /\ forall ev st', step keyboard_rejects st ev st' ->
       files st' = files st
       \/ exists (key : str) (entries : list ShortcutItem),
           key <> ""
           /\ files st'
              = fst (save cm {| hotkey := VStr key; shortcuts := entries |} (files st))
           /\ (snd (save cm {| hotkey := VStr key; shortcuts := entries |} (files st))
               = Ok tt ->
               load cm (files st') = Ok {| hotkey := VStr key; shortcuts := entries |}).
Proof.
  intros Hreach. split; [by apply reachable_files|].
  intros ev st' [_ _].
  destruct (handler_files cm ev st (reachable_consistent _ _ _ Hreach))
    as [->|(key & entries & Hkey & ->)]; [by left|].
  right. exists key, entries. split; [done|]. split; [done|].
  intros Hcompleted. apply load_save.
  destruct (config_encodable {| hotkey := VStr key; shortcuts := entries |}) eqn:Hc; [done|].
  by rewrite (save_not_encodable cm _ _ Hc) in Hcompleted.
Qed.

(** C6. A completed add appends the new entry to the shared list: the list
    is the old one followed by the new entry, one longer, with every earlier
    entry where it was; and the overlay, which reads the same object, lists
    the new entry last the next time it is shown. *)
Theorem add_item_appends (cm : ConfigManager) (fs0 : filesystem) (st : State)
    (t d : str) :
  reachable keyboard_rejects tk_str cm fs0 st ->
  t <> "" ->
  let before := shortcuts (heap st !!! config st) in
  let st1 := fst (SettingsWindow_add_item (Some t) (Some d) st) in
  let after := shortcuts (heap st1 !!! config st1) in
  snd (SettingsWindow_add_item (Some t) (Some d) st) = Ok tt
  /\ after = before ++ [entry t d]
  /\ length after = S (length before)
  /\ (forall i, i < length before -> after !! i = before !! i)
  /\ ov_tree (overlay (fst (ShortcutOverlay_show st1)))
     = rows_of (heap st !!! config st) ++ [(VStr t, VStr d)].
Proof.
  intros Hreach Ht before st1 after.
  destruct (reachable_consistent _ _ _ Hreach) as [Hcm Hov Hsw Halloc Htree Hsel Hhooks].
  assert (Hafter : after = before ++ [entry t d]).
  { subst after st1 before. destruct t as [[|c t]]; [done|]. run.
    by rewrite Hsw, lookup_total_alter_allocated. }
  split; [by destruct t as [[|c t]]|]. split; [done|]. split; [|split].
  - rewrite Hafter, length_app. cbn. lia.
  - intros i Hi. rewrite Hafter. by apply lookup_app_l.
  - transitivity (rows_of (heap st1 !!! config st1)).
    + subst st1. destruct t as [[|c t]]; [done|]. run. by rewrite Hov.
    + fold after. unfold rows_of at 1. fold after. rewrite Hafter, map_app. done.
Qed.

(** C7. With a row selected, [remove_item] raises nothing and deletes the
    entry at that position: the entries before it and after it stay, in
    order, and the list is one shorter; a list of one entry becomes empty. *)
Theorem remove_item_deletes (cm : ConfigManager) (fs0 : filesystem) (st : State)
    (index : nat) (rest : list nat) :
  reachable keyboard_rejects tk_str cm fs0 st ->
  sw_selection (settings_window st) = index :: rest ->
  let before := shortcuts (heap st !!! config st) in
  let st1 := fst (SettingsWindow_remove_item st) in
  let after := shortcuts (heap st1 !!! config st1) in
  snd (SettingsWindow_remove_item st) = Ok tt
  /\ index < length before
  /\ after = take index before ++ drop (S index) before
  /\ S (length after) = length before
  /\ (length before = 1 -> after = []).
Proof.
  intros Hreach Hselect before st1 after.
  destruct (reachable_consistent _ _ _ Hreach) as [Hcm Hov Hsw Halloc Htree Hsel Hhooks].
  assert (Hindex : index < length before).
  { rewrite Hselect in Hsel. apply Forall_cons in Hsel as [Hindex _].
    by rewrite Htree, length_rows_of in Hindex. }
  assert (Hafter : after = delete index before).
  { subst after st1. run. rewrite Hselect, Hsw. cbn.
    rewrite decide_True by done. cbn.
    by rewrite lookup_total_alter_allocated. }
  split; [|split; [done|split; [|split]]].
  - run. rewrite Hselect, Hsw. cbn. by rewrite decide_True.
  - by rewrite Hafter, delete_take_drop.
  - rewrite Hafter, length_delete by (by apply lookup_lt_is_Some). lia.
  - intros Hone. rewrite Hafter.
    destruct before as [|x [|y before']]; [done| |done].
    cbn in Hindex. by replace index with 0 by lia.
Qed.

(** C8. [toggle] shows a withdrawn overlay and withdraws one that is not
    withdrawn, so two toggles in a row leave the overlay withdrawn exactly
    if it was withdrawn before. *)
Theorem toggle_twice_restores_visibility (st : State) :
  let st1 := fst (ShortcutOverlay_toggle st) in
  let st2 := fst (ShortcutOverlay_toggle st1) in
  is_withdrawn (ov_window (overlay st1)) = negb (is_withdrawn (ov_window (overlay st)))
  /\ is_withdrawn (ov_window (overlay st2)) = is_withdrawn (ov_window (overlay st))
  /\ snd (ShortcutOverlay_toggle st) = Ok tt
  /\ snd (ShortcutOverlay_toggle st1) = Ok tt.
Proof. run. destruct (ov_window (overlay st)) eqn:Hwindow; cbn; rewrite ?Hwindow; by cbn. Qed.

(** C9. [register_hotkey] leaves exactly the binding of the configured
    hotkey, or none when the keyboard library rejects it, whatever was bound
    before: a combination other than the new one is no longer enabled.  In
    every reachable state at most one binding is installed, and a save with a
    non-empty entry leaves the entered hotkey as the only binding; a save
    that fails to write the file does not reach the re-registration and
    leaves the bindings as they are. *)
Theorem register_hotkey_releases_previous :
  (forall st : State,
     let new := hotkey (heap st !!! config st) in
     let st' := fst (ShortcutApp_register_hotkey keyboard_rejects st) in
     hooks st' = match keyboard_rejects new with None => [new] | Some _ => [] end
     /\ length (hooks st') <= 1
     /\ forall old, old <> new -> ~ enabled st' (PressHotkey old))
  /\ (forall (cm : ConfigManager) (fs0 : filesystem) (st : State),
        reachable keyboard_rejects tk_str cm fs0 st ->
        length (hooks st) <= 1
        /\ (strip (sw_hotkey_var (settings_window st)) <> "" ->
            let new := VStr (strip (sw_hotkey_var (settings_window st))) in
            hooks (fst (handler keyboard_rejects ClickSave st))
            = if config_encodable (set_hotkey new (heap st !!! config st))
              then match keyboard_rejects new with None => [new] | Some _ => [] end
              else hooks st)).
Proof.
  split.
  - intros st new st'. subst st'. rewrite register_hotkey_eq. fold new.
    destruct (keyboard_rejects new) as [e|]; cbn; (split; [done|split; [lia|]]).
    + intros old _ Hin. by apply elem_of_nil in Hin.
    + intros old Hold Hin. apply list_elem_of_singleton in Hin. by apply Hold.
  - intros cm fs0 st Hreach.
    pose proof (reachable_consistent _ _ _ Hreach) as Hst.
    split; [by destruct Hst|]. intros Hentered.
    destruct (strip (sw_hotkey_var (settings_window st))) as [[|c entered]] eqn:Hstrip;
      [done|].
    rewrite (save_click_eq cm st c entered Hst Hstrip). cbn zeta.
    by destruct (config_encodable _); [destruct (keyboard_rejects _)|].
Qed.

End ApplicationProperties.

(** ** The theorems at concrete states *)

Lemma example_state_reachable :
  reachable rejects_empty str_of example_manager ∅ example_state.
Proof. apply reachable_init. reflexivity. Qed.

Lemma one_entry_selected_reachable :
  reachable rejects_empty str_of example_manager one_entry_files one_entry_selected.
Proof.
  apply (reachable_step _ _ _ _ one_entry_state (SelectRows [0])).
  - apply reachable_init. reflexivity.
  - apply (step_handler rejects_empty one_entry_state (SelectRows [0])).
    + reflexivity.
    + cbn. repeat constructor.
Qed.

(** A session from a missing file: the user opens the settings, adds an
    entry, types a hotkey with blanks around it, saves and presses the new
    hotkey. *)
Example session_add_and_save :
  let st :=
    run_events rejects_empty
      [ClickSettings; ClickAdd (Some "Win+D") (Some "Show desktop");
       TypeHotkey " ctrl+alt+k "; ClickSave; PressHotkey (VStr "ctrl+alt+k")]
      example_state in
  hooks st = [VStr "ctrl+alt+k"]
  /\ load example_manager (files st)
     = Ok (config_of "ctrl+alt+k"
             [("Win+E", "Open File Explorer"); ("Win+L", "Lock the PC");
              ("Win+D", "Show desktop")])
  /\ dialogs st = [ShowInfo "Saved" "Settings saved. New hotkey is active now."]
  /\ ov_window (overlay st) = Normal
  /\ ov_tree (overlay st)
     = [(VStr "Win+E", VStr "Open File Explorer"); (VStr "Win+L", VStr "Lock the PC");
        (VStr "Win+D", VStr "Show desktop")].
Proof. by vm_compute. Qed.

(** With a keyboard library that rejects the hotkey, the save has written
    the file and released the old binding when [ValueError] ends it: no
    binding is left and no confirmation is shown. *)
Example session_save_rejected_by_keyboard :
  let run := handler (fun _ => Some ValueError) ClickSave
               (fst (handler (fun _ => Some ValueError) (TypeHotkey "ctrl+nokey") example_state)) in
  snd run = Raise ValueError
  /\ hooks (fst run) = []
  /\ dialogs (fst run) = []
  /\ load example_manager (files (fst run))
     = Ok (config_of "ctrl+nokey"
             [("Win+E", "Open File Explorer"); ("Win+L", "Lock the PC")]).
Proof. by vm_compute. Qed.

(** In an application started from a file with a surrogate in an entry, the
    save button stores the new hotkey in the configuration object and then
    fails to write the file: the old binding stays, no box is shown, and the
    file no longer loads. *)
Example session_save_fails_on_surrogate :
  let run := handler rejects_empty ClickSave surrogate_typed_state in
  snd run = Raise UnicodeEncodeError
  /\ hotkey (heap (fst run) !!! 0) = VStr "f9"
  /\ hooks (fst run) = [VStr "ctrl+alt+k"]
  /\ dialogs (fst run) = []
  /\ load example_manager (files surrogate_typed_state)
     = Ok (config_of "ctrl+alt+k" [("Win+D", Str [55296%N])])
  /\ load example_manager (files (fst run)) = Raise JSONDecodeError.
Proof. by vm_compute. Qed.

(** Removing with no row selected only shows the prompt. *)
Example session_remove_without_selection :
  handler rejects_empty ClickRemove example_state
  = (set_dialogs (fun _ => [ShowInfo "Select" "Please select a shortcut to remove."])
       example_state, Ok tt).
Proof. reflexivity. Qed.

(** A file whose entry lacks its description stops the program at start. *)
Example init_with_broken_entry :
  ShortcutApp_init rejects_empty str_of example_manager
    {[ "config.json"%string := JsonText (VDict [("shortcuts", VList [VDict [("title", VStr "Win+E")]])]) ]}
  = Raise (KeyError "description").
Proof. reflexivity. Qed.

Lemma save_rejects_empty_hotkey_witness :
  strip (sw_hotkey_var (settings_window blank_entry_state)) = ""
  /\ SettingsWindow_save (ShortcutApp_on_save rejects_empty) blank_entry_state
     = (set_dialogs (fun ds => ds ++ [ShowError "Hotkey" "Please enter a valid hotkey."])
          blank_entry_state, Ok tt).
Proof.
  split; [reflexivity|].
  apply (save_rejects_empty_hotkey (ShortcutApp_on_save rejects_empty) blank_entry_state).
  reflexivity.
Defined.

Lemma typed_state_reachable :
  reachable rejects_empty str_of example_manager ∅ typed_state.
Proof.
  apply (reachable_step _ _ _ _ example_state (TypeHotkey " ctrl+alt+k ")).
  - apply reachable_init. reflexivity.
  - by apply (step_handler rejects_empty example_state (TypeHotkey " ctrl+alt+k ")).
Qed.

Lemma saved_state_reachable :
  reachable rejects_empty str_of example_manager ∅ saved_state.
Proof.
  apply (reachable_step _ _ _ _ typed_state ClickSave).
  - exact typed_state_reachable.
  - by apply (step_handler rejects_empty typed_state ClickSave).
Qed.

Lemma saved_hotkey_is_nonempty_witness :
  files saved_state !! "config.json"%string
  = Some (JsonText (payload (set_hotkey (VStr "ctrl+alt+k") seeded_config)))
  /\ saved_with_hotkey example_manager ∅ (files saved_state)
  /\ (files saved_state = files typed_state
      \/ exists (key : str) (entries : list ShortcutItem),
          key <> ""
          /\ files saved_state
             = fst (save example_manager {| hotkey := VStr key; shortcuts := entries |}
                      (files typed_state))
          /\ (snd (save example_manager {| hotkey := VStr key; shortcuts := entries |}
                     (files typed_state)) = Ok tt ->
              load example_manager (files saved_state)
              = Ok {| hotkey := VStr key; shortcuts := entries |})).
Proof.
  split; [reflexivity|]. split.
  - apply (saved_hotkey_is_nonempty rejects_empty str_of example_manager ∅ saved_state).
    exact saved_state_reachable.
  - apply (proj2 (saved_hotkey_is_nonempty rejects_empty str_of example_manager ∅
                     typed_state typed_state_reachable) ClickSave saved_state).
    by apply (step_handler rejects_empty typed_state ClickSave).
Defined.

Lemma add_item_appends_witness :
  shortcuts (heap (fst (SettingsWindow_add_item (Some "Win+D") (Some "Show desktop")
                          example_state)) !!! 0)
  = shortcuts seeded_config ++ [entry "Win+D" "Show desktop"].
Proof.
  apply (add_item_appends rejects_empty str_of example_manager ∅ example_state
           "Win+D" "Show desktop").
  - exact example_state_reachable.
  - discriminate.
Defined.

Lemma remove_item_deletes_witness :
  shortcuts (heap (fst (SettingsWindow_remove_item one_entry_selected)) !!! 0) = [].
Proof.
  apply (remove_item_deletes rejects_empty str_of example_manager one_entry_files
           one_entry_selected 0 []).
  - exact one_entry_selected_reachable.
  - reflexivity.
  - reflexivity.
Defined.

Lemma register_hotkey_releases_previous_witness :
  (VStr "ctrl+shift+s" ∈ hooks rebound_state
   /\ ~ enabled (fst (ShortcutApp_register_hotkey rejects_empty rebound_state))
         (PressHotkey (VStr "ctrl+shift+s"))
   /\ hooks (fst (ShortcutApp_register_hotkey rejects_empty rebound_state))
      = [VStr "ctrl+alt+k"])
  /\ length (hooks example_state) <= 1
  /\ hooks (fst (handler rejects_empty ClickSave typed_state)) = [VStr "ctrl+alt+k"].
Proof.
  destruct (register_hotkey_releases_previous rejects_empty str_of) as [Hregister Hever].
  destruct (Hregister rebound_state) as (Hhooks & _ & Hold).
  destruct (Hever example_manager ∅ example_state example_state_reachable) as [Hone _].
  destruct (Hever example_manager ∅ typed_state typed_state_reachable) as [_ Hsave].
  split; [split; [by apply list_elem_of_singleton|split]|split].
  - apply Hold. discriminate.
  - exact Hhooks.
  - exact Hone.
  - apply Hsave. discriminate.
Defined.

(** * Further properties *)

(** ** Stripping *)

Lemma lstrip_codes_nil_iff (cs : list N) :
  lstrip_codes cs = [] <-> forallb is_space cs = true.
Proof.
  induction cs as [|c cs IH]; cbn [lstrip_codes forallb]; [done|].
  destruct (is_space c); cbn [andb]; [done|]. split; discriminate.
Qed.

Lemma rstrip_codes_nil_iff (cs : list N) :
  rstrip_codes cs = [] <-> forallb is_space cs = true.
Proof.
  induction cs as [|c cs IH]; cbn [rstrip_codes forallb]; [done|].
  destruct (rstrip_codes cs) as [|a kept].
  - destruct (is_space c); cbn [andb]; [tauto|]. split; discriminate.
  - split; [discriminate|]. intros [_ Hs]%andb_true_iff.
    apply IH in Hs. discriminate.
Qed.

Lemma forallb_lstrip_codes (cs : list N) :
  forallb is_space (lstrip_codes cs) = forallb is_space cs.
Proof.
  induction cs as [|c cs IH]; cbn [lstrip_codes forallb]; [done|].
  destruct (is_space c) eqn:Hc; cbn [andb forallb]; [done|]. by rewrite Hc.
Qed.

Lemma str_empty_iff (s : str) : s = "" <-> codes s = [].
Proof. destruct s as [cs]. cbn. split; [by intros [= ->] | by intros ->]. Qed.

Lemma lstrip_empty_iff (s : str) : lstrip s = "" <-> all_space s = true.
Proof. rewrite str_empty_iff. apply lstrip_codes_nil_iff. Qed.

Lemma rstrip_empty_iff (s : str) : rstrip s = "" <-> all_space s = true.
Proof. rewrite str_empty_iff. apply rstrip_codes_nil_iff. Qed.

Lemma all_space_lstrip (s : str) : all_space (lstrip s) = all_space s.
Proof. apply forallb_lstrip_codes. Qed.

Lemma strip_empty_iff (s : str) : strip s = "" <-> all_space s = true.
Proof. unfold strip. by rewrite rstrip_empty_iff, all_space_lstrip. Qed.

(** [lstrip] leaves nothing to strip on the left. *)
Lemma lstrip_codes_head (cs : list N) :
  match lstrip_codes cs with
  | [] => True
  | c :: _ => is_space c = false
  end.
Proof.
  induction cs as [|c cs IH]; cbn [lstrip_codes]; [done|].
  by destruct (is_space c) eqn:Hc.
Qed.

(** [rstrip] keeps the first character of what it does not strip away. *)
Lemma rstrip_codes_head (c : N) (cs : list N) :
  rstrip_codes (c :: cs) = [] \/ exists kept, rstrip_codes (c :: cs) = c :: kept.
Proof.
  cbn [rstrip_codes]. destruct (rstrip_codes cs) as [|a kept]; [|by right; eexists].
  destruct (is_space c); [by left | by right; eexists].
Qed.

Lemma rstrip_codes_idempotent (cs : list N) :
  rstrip_codes (rstrip_codes cs) = rstrip_codes cs.
Proof.
  induction cs as [|c cs IH]; cbn [rstrip_codes]; [done|].
  destruct (rstrip_codes cs) as [|a kept] eqn:Hs.
  - destruct (is_space c) eqn:Hc; cbn [rstrip_codes]; [done|]. by rewrite Hc.
  - change (rstrip_codes (c :: a :: kept)) with
      (match rstrip_codes (a :: kept) with
       | [] => if is_space c then [] else [c]
       | a' :: kept' => c :: a' :: kept'
       end).
    by rewrite IH.
Qed.

Lemma rstrip_idempotent (s : str) : rstrip (rstrip s) = rstrip s.
Proof. unfold rstrip. cbn [codes]. by rewrite rstrip_codes_idempotent. Qed.

Lemma lstrip_strip (s : str) : lstrip (strip s) = strip s.
Proof.
  unfold strip, lstrip, rstrip. cbn [codes]. f_equal.
  pose proof (lstrip_codes_head (codes s)) as Hhead.
  destruct (lstrip_codes (codes s)) as [|c t]; [done|].
  destruct (rstrip_codes_head c t) as [->|[kept ->]]; [done|].
  cbn [lstrip_codes]. by rewrite Hhead.
Qed.

Lemma rstrip_strip (s : str) : rstrip (strip s) = strip s.
Proof. unfold strip. apply rstrip_idempotent. Qed.

(** ** The editor and the save button *)

Section FurtherProperties.

Context (keyboard_rejects : value -> option exn) (tk_str : value -> str).

(** X1. The save button answers with the error box, and does nothing else,
    exactly when the hotkey entry holds whitespace only. *)
Theorem save_rejected_iff_blank (st : State) :
  handler keyboard_rejects ClickSave st
  = (set_dialogs (fun ds => ds ++ [ShowError "Hotkey" "Please enter a valid hotkey."]) st,
     Ok tt)
  <-> all_space (sw_hotkey_var (settings_window st)) = true.
Proof.
  rewrite <- strip_empty_iff.
  unfold handler, SettingsWindow_save, ShortcutApp_on_save, ConfigManager_save,
    ShortcutApp_register_hotkey, keyboard_unhook_all, keyboard_add_hotkey,
    mutate, showinfo, showerror, deref, get, modify, raise, mbind, mret, M_bind, M_ret.
  destruct (strip (sw_hotkey_var (settings_window st))) as [[|c entered]]; [done|].
  split; [|done]. cbn -[save].
  destruct (save _ _ _) as [fs [[]|e]]; cbn; [|done].
  destruct (keyboard_rejects _); cbn; [done|].
  intros Hstate. apply (f_equal (fun r => dialogs (fst r))) in Hstate. cbn in Hstate.
  by apply app_inv_head in Hstate.
Qed.

(** X2. A save with a non-blank entry puts the entry into the configuration
    object without the whitespace around it: stripping the stored hotkey
    again, on either side, changes nothing.  When UTF-8 can encode the
    strings of the configuration, the file then holds the whole
    configuration as it is in memory, entries included, also when the
    keyboard library goes on to reject the hotkey.  Otherwise the callback
    ends in [UnicodeEncodeError] with the new hotkey in memory only: the
    file no longer loads, and the bindings and the boxes are as before. *)
Theorem save_stores_stripped_hotkey (cm : ConfigManager) (fs0 : filesystem) (st : State) :
  reachable keyboard_rejects tk_str cm fs0 st ->
  all_space (sw_hotkey_var (settings_window st)) = false ->
  let entered := strip (sw_hotkey_var (settings_window st)) in
  let st' := fst (handler keyboard_rejects ClickSave st) in
  entered <> ""
  /\ lstrip entered = entered
  /\ rstrip entered = entered
  /\ heap st' !!! config st' = set_hotkey (VStr entered) (heap st !!! config st)
  /\ if config_encodable (heap st' !!! config st')
     then load cm (files st') = Ok (heap st' !!! config st')
     else snd (handler keyboard_rejects ClickSave st) = Raise UnicodeEncodeError
          /\ load cm (files st') = Raise JSONDecodeError
          /\ hooks st' = hooks st
          /\ dialogs st' = dialogs st.
Proof.
  intros Hreach Hblank entered st'.
  pose proof (reachable_consistent _ _ _ _ _ Hreach) as Hst.
  assert (Hentered : entered <> "").
  { intros Hempty. apply strip_empty_iff in Hempty. congruence. }
  split; [done|]. split; [apply lstrip_strip|]. split; [apply rstrip_strip|].
  subst st'. destruct entered as [[|c entered']] eqn:Hstrip; [done|].
  rewrite (save_click_eq keyboard_rejects cm st c entered' Hst Hstrip). cbn zeta.
  destruct Hst as [Hcm Hov Hsw Halloc Htree Hsel Hhooks].
  destruct (config_encodable (set_hotkey _ (heap st !!! config st))) eqn:Hc.
  - destruct (keyboard_rejects _); cbn;
      rewrite lookup_total_alter_allocated by done;
      (split; [done|]); rewrite Hc; by apply load_save.
  - cbn. rewrite lookup_total_alter_allocated by done.
    split; [done|]. rewrite Hc. split; [done|]. by split; [apply load_failed_save|].
Qed.

(** X3. With a row selected and both prompts answered, the title not empty,
    [edit_item] raises nothing and replaces the entry at that position: the
    list keeps its length and every other entry, the hotkey is untouched,
    and the settings tree shows the new list. *)
Theorem edit_item_replaces (cm : ConfigManager) (fs0 : filesystem) (st : State)
    (index : nat) (rest : list nat) (t d : str) :
  reachable keyboard_rejects tk_str cm fs0 st ->
  sw_selection (settings_window st) = index :: rest ->
  t <> "" ->
  let before := shortcuts (heap st !!! config st) in
  let st1 := fst (SettingsWindow_edit_item (Some t) (Some d) st) in
  let after := shortcuts (heap st1 !!! config st1) in
  snd (SettingsWindow_edit_item (Some t) (Some d) st) = Ok tt
  /\ index < length before
  /\ after = <[index := entry t d]> before
  /\ length after = length before
  /\ after !! index = Some (entry t d)
  /\ (forall j, j <> index -> after !! j = before !! j)
  /\ hotkey (heap st1 !!! config st1) = hotkey (heap st !!! config st)
  /\ sw_tree (settings_window st1) = rows_of (heap st1 !!! config st1).
Proof.
  intros Hreach Hselect Ht before st1 after.
  destruct (reachable_consistent _ _ _ _ _ Hreach) as [Hcm Hov Hsw Halloc Htree Hsel Hhooks].
  assert (Hindex : index < length before).
  { rewrite Hselect in Hsel. apply Forall_cons in Hsel as [Hindex _].
    by rewrite Htree, length_rows_of in Hindex. }
  destruct (lookup_lt_is_Some_2 before index Hindex) as [current Hcurrent].
  assert (Hrun : SettingsWindow_edit_item (Some t) (Some d) st
                 = (set_settings_window
                      (set_sw_tree (rows_of (set_shortcuts (fun l => <[index := entry t d]> l)
                                               (heap st !!! config st))))
                      (set_heap (alter (set_shortcuts (fun l => <[index := entry t d]> l))
                                   (config st)) st), Ok tt)).
  { run. rewrite Hselect, Hsw. cbn. fold before. rewrite Hcurrent.
    destruct t as [[|c t]]; [done|]. cbn.
    by rewrite Hsw, lookup_total_alter_allocated. }
  subst after st1. rewrite Hrun. cbn.
  rewrite lookup_total_alter_allocated by done. cbn. fold before.
  repeat split; try done.
  - apply length_insert.
  - by apply list_lookup_insert_eq.
  - intros j Hj. by apply list_lookup_insert_ne.
Qed.

(** X4. A cancelled prompt, or an empty title, changes nothing at all: not
    the entries, not the trees, not the selection, and no box is shown.  In
    every reachable state this holds for [add_item], and for [edit_item]
    whenever a row is selected. *)
Theorem cancelled_prompt_changes_nothing (cm : ConfigManager) (fs0 : filesystem)
    (st : State) (asked_title asked_description : option str) :
  reachable keyboard_rejects tk_str cm fs0 st ->
  asked_title = None \/ asked_title = Some "" \/ asked_description = None ->
  SettingsWindow_add_item asked_title asked_description st = (st, Ok tt)
  /\ (sw_selection (settings_window st) <> [] ->
      SettingsWindow_edit_item asked_title asked_description st = (st, Ok tt)).
Proof.
  intros Hreach Hcancel.
  destruct (reachable_consistent _ _ _ _ _ Hreach) as [Hcm Hov Hsw Halloc Htree Hsel Hhooks].
  split.
  - destruct Hcancel as [->|[->| ->]]; [done|done|].
    by destruct asked_title as [[[|c t]]|].
  - intros Hselected. run.
    destruct (sw_selection (settings_window st)) as [|index rest]; [done|].
    apply Forall_cons in Hsel as [Hindex _].
    rewrite Htree, length_rows_of, <- Hsw in Hindex.
    destruct (lookup_lt_is_Some_2 _ _ Hindex) as [current Hcurrent].
    cbn. rewrite Hcurrent.
    destruct Hcancel as [->|[->| ->]]; [done|done|].
    by destruct asked_title as [[[|c t]]|].
Qed.

(** X5. A completed removal leaves no row selected, so a further click on
    Remove or on Edit, without a new selection, changes no entry and only
    shows the prompt to select one. *)
Theorem remove_twice_removes_once (cm : ConfigManager) (fs0 : filesystem) (st : State)
    (index : nat) (rest : list nat) (asked_title asked_description : option str) :
  reachable keyboard_rejects tk_str cm fs0 st ->
  sw_selection (settings_window st) = index :: rest ->
  let st1 := fst (SettingsWindow_remove_item st) in
  sw_selection (settings_window st1) = []
  /\ SettingsWindow_remove_item st1
     = (set_dialogs
          (fun ds => ds ++ [ShowInfo "Select" "Please select a shortcut to remove."]) st1,
        Ok tt)
  /\ SettingsWindow_edit_item asked_title asked_description st1
     = (set_dialogs
          (fun ds => ds ++ [ShowInfo "Select" "Please select a shortcut to edit."]) st1,
        Ok tt).
Proof.
  intros Hreach Hselect st1.
  destruct (reachable_consistent _ _ _ _ _ Hreach) as [Hcm Hov Hsw Halloc Htree Hsel Hhooks].
  assert (Hindex : index < length (shortcuts (heap st !!! sw_config (settings_window st)))).
  { rewrite Hselect in Hsel. apply Forall_cons in Hsel as [Hindex _].
    by rewrite Htree, length_rows_of, <- Hsw in Hindex. }
  assert (Hcleared : sw_selection (settings_window st1) = []).
  { subst st1. run. rewrite Hselect. cbn. by rewrite decide_True. }
  split; [done|]. run. by rewrite Hcleared.
Qed.

(** How a callback changes the configuration object and the bindings. *)
Lemma handler_config (cm : ConfigManager) (ev : event) (st : State) :
  consistent cm st ->
  config (fst (handler keyboard_rejects ev st)) = config st
  /\ heap (fst (handler keyboard_rejects ev st)) !!! config st
     = config_after st ev (heap st !!! config st).
Proof.
  intros Hst. pose proof Hst as [Hcm Hov Hsw Halloc Htree Hsel Hhooks].
  destruct ev as [combination| | | | |text|positions|t d|t d| | |];
    try (run; done).
  - run. by destruct (is_withdrawn _).
  - destruct t as [[[|a t]]|], d as [d|]; run; try done.
    by rewrite Hsw, lookup_total_alter_allocated.
  - run. destruct (sw_selection (settings_window st)) as [|index rest].
    { cbn. by destruct t as [[[|a t]]|], d as [d|]. }
    apply Forall_cons in Hsel as [Hindex _].
    rewrite Htree, length_rows_of, <- Hsw in Hindex.
    destruct (lookup_lt_is_Some_2 _ _ Hindex) as [current Hcurrent].
    cbn. rewrite Hcurrent.
    destruct t as [[[|a t]]|], d as [d|]; cbn; try done.
    by rewrite Hsw, lookup_total_alter_allocated.
  - run. destruct (sw_selection (settings_window st)) as [|index rest]; [by cbn|].
    apply Forall_cons in Hsel as [Hindex _].
    rewrite Htree, length_rows_of, <- Hsw in Hindex.
    cbn. rewrite decide_True by done. cbn.
    by rewrite Hsw, lookup_total_alter_allocated.
  - cbn [config_after].
    destruct (strip (sw_hotkey_var (settings_window st))) as [[|a entered]] eqn:Hentered.
    { run. by rewrite Hentered. }
    rewrite (save_click_eq keyboard_rejects cm st a entered Hst Hentered). cbn zeta.
    destruct (config_encodable _); [destruct (keyboard_rejects _)|]; cbn;
      by rewrite lookup_total_alter_allocated.
Qed.

(** The bindings after a callback.  The save button renews the binding only
    when the file was written. *)
Lemma handler_hooks (cm : ConfigManager) (ev : event) (st : State) :
  consistent cm st ->
  hooks (fst (handler keyboard_rejects ev st))
  = match ev with
    | ClickSave =>
        match strip (sw_hotkey_var (settings_window st)) with
        | Str [] => hooks st
        | entered =>
            if config_encodable (set_hotkey (VStr entered) (heap st !!! config st))
            then match keyboard_rejects (VStr entered) with
                 | None => [VStr entered]
                 | Some _ => []
                 end
            else hooks st
        end
    | CloseRoot => []
    | _ => hooks st
    end.
Proof.
  intros Hst.
  destruct ev as [combination| | | | |text|positions|t d|t d| | |];
    try (run; done).
  - run. by destruct (is_withdrawn _).
  - by destruct t as [[[|a t]]|], d as [d|].
  - run. destruct (sw_selection _) as [|index rest]; [done|].
    cbn. destruct (shortcuts _ !! index) as [current|]; [|done].
    by destruct t as [[[|a t]]|], d as [d|].
  - run. destruct (sw_selection _) as [|index rest]; [done|].
    cbn. by case_decide.
  - destruct (strip (sw_hotkey_var (settings_window st))) as [[|a entered]] eqn:Hentered.
    + run. by rewrite Hentered.
    + rewrite (save_click_eq keyboard_rejects cm st a entered Hst Hentered). cbn zeta.
      by destruct (config_encodable _); [destruct (keyboard_rejects _)|].
Qed.

(** How a callback ends. *)
Lemma handler_result (cm : ConfigManager) (ev : event) (st : State) :
  consistent cm st ->
  snd (handler keyboard_rejects ev st)
  = match ev with
    | ClickSave =>
        match strip (sw_hotkey_var (settings_window st)) with
        | Str [] => Ok tt
        | entered =>
            if config_encodable (set_hotkey (VStr entered) (heap st !!! config st))
            then match keyboard_rejects (VStr entered) with
                 | None => Ok tt
                 | Some e => Raise e
                 end
            else Raise UnicodeEncodeError
        end
    | _ => Ok tt
    end.
Proof.
  intros Hst. pose proof Hst as [Hcm Hov Hsw Halloc Htree Hsel Hhooks].
  destruct ev as [combination| | | | |text|positions|t d|t d| | |];
    try (run; done).
  - run. by destruct (is_withdrawn _).
  - by destruct t as [[[|a t]]|], d as [d|].
  - run. destruct (sw_selection (settings_window st)) as [|index rest]; [done|].
    apply Forall_cons in Hsel as [Hindex _].
    rewrite Htree, length_rows_of, <- Hsw in Hindex.
    destruct (lookup_lt_is_Some_2 _ _ Hindex) as [current Hcurrent].
    cbn. rewrite Hcurrent.
    by destruct t as [[[|a t]]|], d as [d|].
  - run. destruct (sw_selection (settings_window st)) as [|index rest]; [done|].
    apply Forall_cons in Hsel as [Hindex _].
    rewrite Htree, length_rows_of, <- Hsw in Hindex.
    cbn. by rewrite decide_True.
  - destruct (strip (sw_hotkey_var (settings_window st))) as [[|a entered]] eqn:Hentered.
    + run. by rewrite Hentered.
    + rewrite (save_click_eq keyboard_rejects cm st a entered Hst Hentered). cbn zeta.
      by destruct (config_encodable _); [destruct (keyboard_rejects _)|].
Qed.

(** The files after a callback. *)
Lemma handler_files_eq (cm : ConfigManager) (ev : event) (st : State) :
  consistent cm st ->
  files (fst (handler keyboard_rejects ev st))
  = match ev with
    | ClickSave =>
        match strip (sw_hotkey_var (settings_window st)) with
        | Str [] => files st
        | entered =>
            fst (save cm (set_hotkey (VStr entered) (heap st !!! config st)) (files st))
        end
    | _ => files st
    end.
Proof.
  intros Hst.
  destruct ev as [combination| | | | |text|positions|t d|t d| | |];
    try (run; done).
  - run. by destruct (is_withdrawn _).
  - by destruct t as [[[|a t]]|], d as [d|].
  - run. destruct (sw_selection _) as [|index rest]; [done|].
    cbn. destruct (shortcuts _ !! index) as [current|]; [|done].
    by destruct t as [[[|a t]]|], d as [d|].
  - run. destruct (sw_selection _) as [|index rest]; [done|].
    cbn. by case_decide.
  - destruct (strip (sw_hotkey_var (settings_window st))) as [[|a entered]] eqn:Hentered.
    + run. by rewrite Hentered.
    + rewrite (save_click_eq keyboard_rejects cm st a entered Hst Hentered). cbn zeta.
      by destruct (config_encodable _); [destruct (keyboard_rejects _)|].
Qed.

Lemma handler_files_unless_save (ev : event) (st : State) :
  ev <> ClickSave -> files (fst (handler keyboard_rejects ev st)) = files st.
Proof.
  intros Hev.
  destruct ev as [combination| | | | |text|positions|t d|t d| | |];
    try done; try (run; done).
  - run. by destruct (is_withdrawn _).
  - by destruct t as [[[|a t]]|], d as [d|].
  - run. destruct (sw_selection _) as [|index rest]; [done|].
    cbn. destruct (shortcuts _ !! index) as [current|]; [|done].
    by destruct t as [[[|a t]]|], d as [d|].
  - run. destruct (sw_selection _) as [|index rest]; [done|].
    cbn. by case_decide.
Qed.

Lemma handler_root_alive (cm : ConfigManager) (ev : event) (st : State) :
  consistent cm st ->
  root_alive (fst (handler keyboard_rejects ev st))
  = match ev with
    | CloseRoot => false
    | _ => root_alive st
    end.
Proof.
  intros Hst.
  destruct ev as [combination| | | | |text|positions|t d|t d| | |];
    try (run; done).
  - run. by destruct (is_withdrawn _).
  - by destruct t as [[[|a t]]|], d as [d|].
  - run. destruct (sw_selection _) as [|index rest]; [done|].
    cbn. destruct (shortcuts _ !! index) as [current|]; [|done].
    by destruct t as [[[|a t]]|], d as [d|].
  - run. destruct (sw_selection _) as [|index rest]; [done|].
    cbn. by case_decide.
  - destruct (strip (sw_hotkey_var (settings_window st))) as [[|a entered]] eqn:Hentered.
    + run. by rewrite Hentered.
    + rewrite (save_click_eq keyboard_rejects cm st a entered Hst Hentered). cbn zeta.
      by destruct (config_encodable _); [destruct (keyboard_rejects _)|].
Qed.

(** The state [__init__] returns. *)
Lemma init_state (cm : ConfigManager) (fs : filesystem) (st : State) :
  ShortcutApp_init keyboard_rejects tk_str cm fs = Ok st ->
  exists c,
    load cm fs = Ok c
    /\ keyboard_rejects (hotkey c) = None
    /\ heap st !!! config st = c
    /\ hooks st = [hotkey c]
    /\ files st = fs
    /\ dialogs st = []
    /\ overlay st = {| ov_config := config st; ov_window := Withdrawn; ov_tree := [] |}
    /\ settings_window st
       = {| sw_config := config st; sw_window := Withdrawn;
            sw_hotkey_var := tk_str (hotkey c); sw_tree := rows_of c;
            sw_selection := [] |}.
Proof.
  unfold ShortcutApp_init. destruct (load cm fs) as [c|e]; [|done]. cbn.
  rewrite register_hotkey_eq. cbn.
  rewrite lookup_total_singleton_eq.
  destruct (keyboard_rejects (hotkey c)) eqn:Hkey; [done|].
  intros [= <-]. exists c. cbn. by rewrite lookup_total_singleton_eq.
Qed.

(** X6. In a reachable state no callback raises an exception, with one
    exception: the save button with a non-blank entry.  It raises
    [UnicodeEncodeError] when UTF-8 cannot encode a string of the
    configuration to write, and otherwise what the keyboard library raises
    when it rejects the entered hotkey.  In particular the indices that
    Edit and Remove use are always within the list. *)
Theorem only_the_save_button_raises (cm : ConfigManager) (fs0 : filesystem)
    (st : State) (ev : event) :
  reachable keyboard_rejects tk_str cm fs0 st ->
  snd (handler keyboard_rejects ev st) = Ok tt
  \/ (ev = ClickSave
      /\ strip (sw_hotkey_var (settings_window st)) <> ""
      /\ let new := VStr (strip (sw_hotkey_var (settings_window st))) in
         let saved := set_hotkey new (heap st !!! config st) in
         (config_encodable saved = false
          /\ snd (handler keyboard_rejects ev st) = Raise UnicodeEncodeError)
         \/ (config_encodable saved = true
             /\ exists e,
                 keyboard_rejects new = Some e
                 /\ snd (handler keyboard_rejects ev st) = Raise e)).
Proof.
  intros Hreach.
  rewrite (handler_result cm ev st (reachable_consistent _ _ _ _ _ Hreach)).
  destruct ev; try by left.
  destruct (strip (sw_hotkey_var (settings_window st))) as [[|a entered]]; [by left|].
  cbn zeta. destruct (config_encodable _).
  - destruct (keyboard_rejects _) as [e|]; [|by left].
    right. split; [done|]. split; [done|]. right. split; [done|]. by exists e.
  - right. split; [done|]. split; [done|]. by left.
Qed.

(** X7. When the keyboard library rejects the entered hotkey and UTF-8 can
    encode the configuration, the save has already written it: the callback
    ends in the library's exception with no binding left and no box shown,
    and the program can no longer start from the file it wrote, since
    [__init__] raises the same exception.  When UTF-8 cannot encode the
    configuration, the library is not asked: the callback ends in
    [UnicodeEncodeError] with the bindings and the boxes as before, and the
    program cannot start from that file either. *)
Theorem rejected_hotkey_is_saved_and_blocks_start (cm : ConfigManager) (fs0 : filesystem)
    (st : State) (e : exn) :
  reachable keyboard_rejects tk_str cm fs0 st ->
  strip (sw_hotkey_var (settings_window st)) <> "" ->
  keyboard_rejects (VStr (strip (sw_hotkey_var (settings_window st)))) = Some e ->
  let st' := fst (handler keyboard_rejects ClickSave st) in
  let saved :=
    set_hotkey (VStr (strip (sw_hotkey_var (settings_window st)))) (heap st !!! config st) in
  if config_encodable saved then
    snd (handler keyboard_rejects ClickSave st) = Raise e
    /\ hooks st' = []
    /\ dialogs st' = dialogs st
    /\ load cm (files st') = Ok saved
    /\ ShortcutApp_init keyboard_rejects tk_str cm (files st') = Raise e
  else
    snd (handler keyboard_rejects ClickSave st) = Raise UnicodeEncodeError
    /\ hooks st' = hooks st
    /\ dialogs st' = dialogs st
    /\ load cm (files st') = Raise JSONDecodeError
    /\ ShortcutApp_init keyboard_rejects tk_str cm (files st') = Raise JSONDecodeError.
Proof.
  intros Hreach Hentered Hrejects st' saved. subst st' saved.
  pose proof (reachable_consistent _ _ _ _ _ Hreach) as Hst.
  destruct (strip (sw_hotkey_var (settings_window st))) as [[|a entered]] eqn:Hstrip; [done|].
  rewrite (save_click_eq keyboard_rejects cm st a entered Hst Hstrip). cbn zeta.
  destruct (config_encodable _) eqn:Hc; rewrite ?Hrejects; cbn.
  - repeat split; try done; try by apply load_save.
    unfold ShortcutApp_init. rewrite load_save by done. cbn.
    rewrite register_hotkey_eq. cbn.
    rewrite lookup_total_singleton_eq. cbn. by rewrite Hrejects.
  - repeat split; try done; try by apply load_failed_save.
    unfold ShortcutApp_init. by rewrite load_failed_save.
Qed.

(** ** Invariants of the running application *)

Lemma hotkey_config_after (st : State) (ev : event) (c : AppConfig) :
  ev <> ClickSave -> hotkey (config_after st ev c) = hotkey c.
Proof.
  intros Hev.
  destruct ev as [combination| | | | |text|positions|t d|t d| | |]; cbn; try done.
  - by destruct t as [[[|a t]]|], d as [d|].
  - destruct t as [[[|a t]]|], d as [d|]; try done.
    by destruct (sw_selection (settings_window st)).
  - by destruct (sw_selection (settings_window st)).
Qed.

(** X8. The binding follows the file, not the configuration object.  As
    long as the configuration file loads, a binding that is installed is
    the binding of the hotkey in the file; and it is the binding of the
    hotkey that the configuration object holds unless the last save failed
    and left a file that no longer loads.  So the only key combination that
    can toggle the overlay is the one in the file, and it is the configured
    one unless that file is broken. *)
Theorem binding_follows_saved_configuration (cm : ConfigManager) (fs0 : filesystem)
    (st : State) :
  reachable keyboard_rejects tk_str cm fs0 st ->
  ((exists c, load cm (files st) = Ok c /\ (hooks st = [] \/ hooks st = [hotkey c]))
   \/ load cm (files st) = Raise JSONDecodeError)
  /\ (hooks st = [] \/ hooks st = [hotkey (heap st !!! config st)]
      \/ load cm (files st) = Raise JSONDecodeError)
  /\ forall combination,
       enabled st (PressHotkey combination) ->
       (forall c, load cm (files st) = Ok c -> combination = hotkey c)
       /\ (combination = hotkey (heap st !!! config st)
           \/ load cm (files st) = Raise JSONDecodeError).
Proof.
  intros Hreach.
  assert (Hinv :
    ((exists c, load cm (files st) = Ok c /\ (hooks st = [] \/ hooks st = [hotkey c]))
     \/ load cm (files st) = Raise JSONDecodeError)
    /\ (hooks st = [] \/ hooks st = [hotkey (heap st !!! config st)]
        \/ load cm (files st) = Raise JSONDecodeError)).
  { induction Hreach as [st Hinit|st ev st' Hreach [Hfile Hobject] Hstep].
    - destruct (init_state _ _ _ Hinit) as (c & Hload & _ & Hc & Hh & -> & _).
      split; [left; exists c; by auto|]. right. left. by rewrite Hh, Hc.
    - destruct Hstep as [_ _].
      pose proof (reachable_consistent _ _ _ _ _ Hreach) as Hst.
      destruct (handler_config cm ev st Hst) as [Hconfig Hheap].
      rewrite Hconfig, Hheap, (handler_hooks cm ev st Hst), (handler_files_eq cm ev st Hst).
      assert (ev = ClickSave \/ ev <> ClickSave) as [->|Hev]
        by (destruct ev; (by left) || (by right)).
      + cbn [config_after].
        destruct (strip (sw_hotkey_var (settings_window st))) as [[|a entered]]; [done|].
        destruct (config_encodable _) eqn:Hc.
        * rewrite (load_save cm _ _ Hc). split.
          -- left. eexists. split; [done|]. cbn. destruct (keyboard_rejects _); auto.
          -- cbn. destruct (keyboard_rejects _); auto.
        * rewrite (load_failed_save cm _ _ Hc). auto.
      + rewrite (hotkey_config_after st ev _ Hev).
        destruct ev; try done.
        split; [|by left].
        destruct Hfile as [(c & Hload & _)|Hload]; [|by right].
        left. exists c. auto. }
  destruct Hinv as [Hfile Hobject]. split; [done|]. split; [done|].
  intros combination Hen. cbn in Hen. split.
  - intros c Hload. destruct Hfile as [(c' & Hload' & Hhooks)|Hbroken]; [|congruence].
    assert (c' = c) as -> by congruence.
    destruct Hhooks as [Hnone|Hone]; rewrite ?Hnone, ?Hone in Hen.
    + by apply elem_of_nil in Hen.
    + by apply list_elem_of_singleton in Hen.
  - destruct Hobject as [Hnone|[Hone|Hbroken]]; [|left|by right].
    + rewrite Hnone in Hen. by apply elem_of_nil in Hen.
    + rewrite Hone in Hen. by apply list_elem_of_singleton in Hen.
Qed.

(** X9. The settings tree is never stale: in every reachable state it
    shows exactly the current entries, in order, and every selected row is a
    position of the entry list. *)
Theorem settings_tree_mirrors_entries (cm : ConfigManager) (fs0 : filesystem) (st : State) :
  reachable keyboard_rejects tk_str cm fs0 st ->
  sw_tree (settings_window st)
  = map (fun item => (title item, description item)) (shortcuts (heap st !!! config st))
  /\ Forall (fun i => i < length (shortcuts (heap st !!! config st)))
            (sw_selection (settings_window st)).
Proof.
  intros Hreach.
  destruct (reachable_consistent _ _ _ _ _ Hreach) as [Hcm Hov Hsw Halloc Htree Hsel Hhooks].
  split; [done|]. by rewrite Htree, length_rows_of in Hsel.
Qed.

(** X10. The editor never stores an entry without a title: when every
    entry the program loaded at start has a non-empty string as its title,
    so has every entry of every reachable state. *)
Theorem editor_keeps_titles (cm : ConfigManager) (fs0 : filesystem) (st : State)
    (c0 : AppConfig) :
  load cm fs0 = Ok c0 ->
  Forall (fun item => titled item = true) (shortcuts c0) ->
  reachable keyboard_rejects tk_str cm fs0 st ->
  Forall (fun item => titled item = true) (shortcuts (heap st !!! config st)).
Proof.
  intros Hload Htitled Hreach.
  induction Hreach as [st Hinit|st ev st' Hreach IH Hstep].
  - destruct (init_state _ _ _ Hinit) as (c & Hc & _ & -> & _). congruence.
  - destruct Hstep as [_ _].
    pose proof (reachable_consistent _ _ _ _ _ Hreach) as Hst.
    destruct (handler_config cm ev st Hst) as [Hconfig Hheap].
    rewrite Hconfig, Hheap.
    destruct ev as [combination| | | | |text|positions|t d|t d| | |]; cbn; try done.
    + destruct t as [[[|a t]]|], d as [d|]; try done.
      cbn. apply Forall_app. split; [done|]. by apply Forall_singleton.
    + destruct t as [[[|a t]]|], d as [d|]; try done.
      destruct (sw_selection (settings_window st)) as [|index rest]; [done|].
      cbn. by apply Forall_insert.
    + destruct (sw_selection (settings_window st)) as [|index rest]; [done|].
      cbn. by apply Forall_delete.
    + by destruct (strip (sw_hotkey_var (settings_window st))) as [[|a entered]].
Qed.

(** X11. Starting the program: a failed load or a hotkey that the keyboard
    library rejects ends [__init__] in that exception; otherwise it returns
    with the loaded configuration, its hotkey bound, both windows withdrawn,
    the settings tree filled, no box shown and the files as they were. *)
Theorem startup_outcome (cm : ConfigManager) (fs : filesystem) :
  match load cm fs with
  | Raise e => ShortcutApp_init keyboard_rejects tk_str cm fs = Raise e
  | Ok c =>
      match keyboard_rejects (hotkey c) with
      | Some e => ShortcutApp_init keyboard_rejects tk_str cm fs = Raise e
      | None =>
          exists st,
            ShortcutApp_init keyboard_rejects tk_str cm fs = Ok st
            /\ files st = fs
            /\ heap st !!! config st = c
            /\ hooks st = [hotkey c]
            /\ dialogs st = []
            /\ ov_window (overlay st) = Withdrawn
            /\ sw_window (settings_window st) = Withdrawn
            /\ sw_tree (settings_window st) = rows_of c
            /\ sw_hotkey_var (settings_window st) = tk_str (hotkey c)
      end
  end.
Proof.
  unfold ShortcutApp_init. destruct (load cm fs) as [c|e]; [|done]. cbn.
  rewrite register_hotkey_eq. cbn. rewrite lookup_total_singleton_eq.
  destruct (keyboard_rejects (hotkey c)); [done|].
  eexists. split; [done|]. cbn. by rewrite lookup_total_singleton_eq.
Qed.

(** X12. Showing the overlay lists the current entries and leaves the
    window not withdrawn; showing it again changes nothing, hiding it then
    withdraws it, and hiding twice is hiding once.  Showing touches neither
    the configuration, nor the files, nor the bindings. *)
Theorem show_lists_current_entries (cm : ConfigManager) (fs0 : filesystem) (st : State) :
  reachable keyboard_rejects tk_str cm fs0 st ->
  let shown := fst (ShortcutOverlay_show st) in
  ov_tree (overlay shown) = rows_of (heap st !!! config st)
  /\ is_withdrawn (ov_window (overlay shown)) = false
  /\ fst (ShortcutOverlay_show shown) = shown
  /\ is_withdrawn (ov_window (overlay (fst (ShortcutOverlay_hide shown)))) = true
  /\ fst (ShortcutOverlay_hide (fst (ShortcutOverlay_hide st))) = fst (ShortcutOverlay_hide st)
  /\ heap shown = heap st /\ files shown = files st /\ hooks shown = hooks st.
Proof.
  intros Hreach shown. subst shown.
  destruct (reachable_consistent _ _ _ _ _ Hreach) as [Hcm Hov Hsw Halloc Htree Hsel Hhooks].
  run. rewrite Hov. repeat split; try done.
  - by destruct (ov_window (overlay st)).
  - unfold set_overlay, set_ov_window, set_ov_tree. cbn.
    by destruct (ov_window (overlay st)).
Qed.

(** X13. Adding an entry, selecting the row it got and removing it gives
    back the entry list and the settings tree there were before. *)
Theorem add_then_remove_last (cm : ConfigManager) (fs0 : filesystem) (st : State)
    (t d : str) :
  reachable keyboard_rejects tk_str cm fs0 st ->
  t <> "" ->
  let before := shortcuts (heap st !!! config st) in
  let st1 := fst (handler keyboard_rejects (ClickAdd (Some t) (Some d)) st) in
  let st2 := fst (handler keyboard_rejects (SelectRows [length before]) st1) in
  let st3 := fst (handler keyboard_rejects ClickRemove st2) in
  enabled st1 (SelectRows [length before])
  /\ snd (handler keyboard_rejects ClickRemove st2) = Ok tt
  /\ shortcuts (heap st3 !!! config st3) = before
  /\ sw_tree (settings_window st3) = sw_tree (settings_window st).
Proof.
  intros Hreach Ht before st1 st2 st3.
  pose proof (reachable_consistent _ _ _ _ _ Hreach) as Hst.
  destruct t as [[|a t]]; [done|].
  destruct (handler_config cm (ClickAdd (Some (Str (a :: t))) (Some d)) st Hst)
    as [Hconfig1 Hheap1]. fold st1 in Hconfig1, Hheap1. cbn in Hheap1.
  assert (Hst1 : consistent cm st1) by (by apply handler_consistent).
  assert (Hen : enabled st1 (SelectRows [length before])).
  { cbn. apply Forall_singleton.
    rewrite (consistent_tree _ _ Hst1), Hconfig1, Hheap1, length_rows_of. cbn.
    rewrite length_app. cbn. fold before. lia. }
  assert (Hst2 : consistent cm st2) by (by apply handler_consistent).
  assert (Hst3 : consistent cm st3) by (by apply handler_consistent).
  destruct (handler_config cm ClickRemove st2 Hst2) as [Hconfig3 Hheap3].
  fold st3 in Hconfig3, Hheap3. cbn in Hheap3.
  assert (Hafter : shortcuts (heap st3 !!! config st3) = before).
  { rewrite Hconfig3. change (config st2) with (config st1).
    rewrite Hheap3, Hconfig1, Hheap1. cbn.
    fold before. by rewrite delete_middle, app_nil_r. }
  split; [done|]. split; [by rewrite (handler_result cm ClickRemove st2 Hst2)|].
  split; [done|].
  rewrite (consistent_tree _ _ Hst3), (consistent_tree _ _ Hst).
  unfold rows_of. by rewrite Hafter.
Qed.

(** X14. Once the root window is closed no binding is left installed, and
    nothing more happens: no event has a step from that state. *)
Theorem closing_releases_binding (cm : ConfigManager) (fs0 : filesystem) (st : State) :
  reachable keyboard_rejects tk_str cm fs0 st ->
  root_alive st = false ->
  hooks st = [] /\ forall ev st', ~ step keyboard_rejects st ev st'.
Proof.
  intros Hreach Hclosed. split.
  - destruct Hreach as [st Hinit|st ev st' Hreach Hstep].
    + apply init_consistent in Hinit as (_ & _ & Halive). congruence.
    + destruct Hstep as [Halive _].
      pose proof (reachable_consistent _ _ _ _ _ Hreach) as Hst.
      rewrite (handler_root_alive cm ev st Hst) in Hclosed.
      rewrite (handler_hooks cm ev st Hst).
      destruct ev; congruence.
  - intros ev st' [Halive _]. congruence.
Qed.

(** X15. Only the Add, Edit and Remove buttons change the entry list, only
    the save button changes the hotkey of the configuration or writes a
    file, and only the save button and closing the root window change the
    bindings. *)
Theorem only_editor_changes_configuration (cm : ConfigManager) (fs0 : filesystem)
    (st : State) (ev : event) :
  reachable keyboard_rejects tk_str cm fs0 st ->
  let st' := fst (handler keyboard_rejects ev st) in
  (edits_entries ev = false ->
   shortcuts (heap st' !!! config st') = shortcuts (heap st !!! config st))
  /\ (ev <> ClickSave ->
      hotkey (heap st' !!! config st') = hotkey (heap st !!! config st)
      /\ files st' = files st)
  /\ (ev <> ClickSave -> ev <> CloseRoot -> hooks st' = hooks st).
Proof.
  intros Hreach st'. subst st'.
  pose proof (reachable_consistent _ _ _ _ _ Hreach) as Hst.
  destruct (handler_config cm ev st Hst) as [Hconfig Hheap].
  rewrite Hconfig, Hheap, (handler_hooks cm ev st Hst). split; [|split].
  - intros Hev. destruct ev; try done. cbn.
    by destruct (strip (sw_hotkey_var (settings_window st))) as [[|a entered]].
  - intros Hev. split; [by apply hotkey_config_after | by apply handler_files_unless_save].
  - intros Hsave Hclose. by destruct ev.
Qed.

End FurtherProperties.

(** ** Loading and saving, further *)

Lemma comprehension_first_bad (good rest : list value) (bad : value) (e : exn) :
  forallb item_ok good = true ->
  item_of_json bad = Raise e ->
  comprehension item_of_json (good ++ bad :: rest) = Raise e.
Proof.
  intros Hgood Hbad. induction good as [|item good IH]; cbn.
  - by rewrite Hbad.
  - cbn in Hgood. apply andb_true_iff in Hgood as [Hitem Hgood].
    apply item_of_json_ok in Hitem as [x ->]. cbn. by rewrite (IH Hgood).
Qed.

Lemma item_of_json_bad (bad : value) :
  item_ok bad = false ->
  item_of_json bad
  = Raise match bad with
          | VDict fields =>
              match dict_lookup "title" fields with
              | None => KeyError "title"
              | Some _ => KeyError "description"
              end
          | _ => TypeError
          end.
Proof.
  destruct bad as [| | | | | |fields]; try done.
  unfold item_of_json. cbn.
  destruct (dict_lookup "title" fields) as [t|]; cbn; [|done].
  by destruct (dict_lookup "description" fields).
Qed.

(** X16. The first malformed entry of the list decides how [load] fails,
    and the entries after it are never looked at: [TypeError] for an entry
    that is not an object, [KeyError] for the title when it is missing, and
    for the description when only that is missing. *)
Theorem load_first_bad_entry (self : ConfigManager) (fs : filesystem)
    (fields : list (str * value)) (good rest : list value) (bad : value) :
  fs !! path self = Some (JsonText (VDict fields)) ->
  dict_lookup "shortcuts" fields = Some (VList (good ++ bad :: rest)) ->
  forallb item_ok good = true ->
  item_ok bad = false ->
  load self fs
  = Raise match bad with
          | VDict entry_fields =>
              match dict_lookup "title" entry_fields with
              | None => KeyError "title"
              | Some _ => KeyError "description"
              end
          | _ => TypeError
          end.
Proof.
  intros Hfile Hlisted Hgood Hbad.
  rewrite (load_object _ _ _ Hfile), Hlisted. cbn.
  by rewrite (comprehension_first_bad good rest bad _ Hgood (item_of_json_bad bad Hbad)).
Qed.

(** X17. A ["shortcuts"] field that is not a list: an empty string and an
    empty object are iterated like an empty list and load as no entries;
    everything else, a number, [null], a boolean, a non-empty string or
    object, makes [load] raise [TypeError]. *)
Theorem load_shortcuts_not_a_list (self : ConfigManager) (fs : filesystem)
    (fields : list (str * value)) (listed : value) :
  fs !! path self = Some (JsonText (VDict fields)) ->
  dict_lookup "shortcuts" fields = Some listed ->
  (forall items, listed <> VList items) ->
  load self fs
  = if iterates_over_items listed
    then Ok {| hotkey := default default_hotkey (dict_lookup "hotkey" fields);
               shortcuts := [] |}
    else Raise TypeError.
Proof.
  intros Hfile Hlisted Hnolist.
  rewrite (load_object _ _ _ Hfile), Hlisted.
  destruct listed as [| | | |s|items|entries]; try done.
  - by destruct s as [[|c s]].
  - by destruct (Hnolist items).
  - by destruct entries as [|[k v] entries].
Qed.


Lemma dict_lookup_keep_fields (names : list str) (key : str) (fields : list (str * value)) :
  key ∈ names -> dict_lookup key (keep_fields names fields) = dict_lookup key fields.
Proof.
  intros Hkey. unfold keep_fields.
  induction fields as [|[k v] fields IH]; [done|].
  rewrite filter_cons. cbn [fst dict_lookup].
  destruct (decide (k ∈ names)) as [Hk|Hk]; cbn [dict_lookup].
  - by rewrite IH.
  - rewrite IH. case_decide as Heq; [|done]. by subst k.
Qed.

Lemma dict_lookup_prune_field (key : str) (fields : list (str * value)) :
  dict_lookup key (map prune_field fields)
  = if decide (key = "shortcuts") then prune_listed <$> dict_lookup key fields
    else dict_lookup key fields.
Proof.
  induction fields as [|[k v] fields IH].
  - cbn. by case_decide.
  - cbn [map]. unfold prune_field at 1. cbn [fst snd].
    destruct (decide (k = "shortcuts")) as [->|Hk]; cbn [dict_lookup].
    + destruct (decide ("shortcuts" = key)) as [<-|Hkey].
      * by rewrite decide_True.
      * rewrite IH. by repeat case_decide.
    + destruct (decide (k = key)) as [->|Hkey].
      * by rewrite decide_False.
      * by rewrite IH.
Qed.

Lemma item_of_json_prune_entry (item : value) :
  item_of_json (prune_entry item) = item_of_json item.
Proof.
  destruct item as [| | | | | |fields]; try done.
  unfold item_of_json, prune_entry, py_getitem.
  rewrite !dict_lookup_keep_fields; [done|set_solver..].
Qed.

Lemma comprehension_prune_entry (items : list value) :
  comprehension item_of_json (map prune_entry items) = comprehension item_of_json items.
Proof.
  induction items as [|item items IH]; [done|].
  cbn [map comprehension]. by rewrite item_of_json_prune_entry, IH.
Qed.

(** X19. [load] reads the two fields it knows and nothing else.  Of the
    document it reads ["hotkey"] and ["shortcuts"], and of each object in
    the list of entries ["title"] and ["description"]: a document loads,
    or fails to load, exactly as the same document without all its other
    fields does, wherever they stand. *)
Theorem load_ignores_unknown_fields (self : ConfigManager) (fs : filesystem) (doc : value) :
  load self (<[path self := JsonText doc]> fs)
  = load self (<[path self := JsonText (prune doc)]> fs).
Proof.
  destruct doc as [| | | | | |fields]; try done.
  cbn [prune].
  rewrite (load_object self _ fields) by apply lookup_insert_eq.
  rewrite (load_object self _ (map prune_field _)) by apply lookup_insert_eq.
  rewrite !dict_lookup_prune_field, !dict_lookup_keep_fields by set_solver.
  destruct (decide ("shortcuts" = "shortcuts")) as [_|?]; [|done].
  destruct (decide ("hotkey" = "shortcuts")) as [?|_]; [done|].
  destruct (dict_lookup "shortcuts" fields) as [listed|]; [|done].
  destruct listed as [| | | | |items|]; try done.
  cbn. by rewrite comprehension_prune_entry.
Qed.

(** ** The further properties at concrete states *)

Lemma nokey_state_reachable :
  reachable rejects_nokey str_of example_manager ∅ nokey_state.
Proof.
  apply (reachable_step _ _ _ _ example_state (TypeHotkey "ctrl+nokey")).
  - apply reachable_init. reflexivity.
  - by apply (step_handler rejects_nokey example_state (TypeHotkey "ctrl+nokey")).
Qed.

Lemma closed_state_reachable :
  reachable rejects_empty str_of example_manager ∅ closed_state.
Proof.
  apply (reachable_step _ _ _ _ example_state CloseRoot).
  - apply reachable_init. reflexivity.
  - by apply (step_handler rejects_empty example_state CloseRoot).
Qed.

Lemma surrogate_typed_state_reachable :
  reachable rejects_empty str_of example_manager surrogate_files surrogate_typed_state.
Proof.
  apply (reachable_step _ _ _ _ surrogate_state (TypeHotkey "f9")).
  - apply reachable_init. reflexivity.
  - by apply (step_handler rejects_empty surrogate_state (TypeHotkey "f9")).
Qed.

Lemma surrogate_saved_state_reachable :
  reachable rejects_empty str_of example_manager surrogate_files surrogate_saved_state.
Proof.
  apply (reachable_step _ _ _ _ surrogate_typed_state ClickSave).
  - exact surrogate_typed_state_reachable.
  - by apply (step_handler rejects_empty surrogate_typed_state ClickSave).
Qed.

Lemma save_rejected_iff_blank_witness :
  all_space (sw_hotkey_var (settings_window blank_entry_state)) = true
  /\ handler rejects_empty ClickSave blank_entry_state
     = (set_dialogs (fun ds => ds ++ [ShowError "Hotkey" "Please enter a valid hotkey."])
          blank_entry_state, Ok tt).
Proof.
  split; [reflexivity|].
  apply (save_rejected_iff_blank rejects_empty blank_entry_state). reflexivity.
Defined.

Lemma save_stores_stripped_hotkey_witness :
  (heap saved_state !!! 0 = set_hotkey (VStr "ctrl+alt+k") seeded_config
   /\ load example_manager (files saved_state)
      = Ok (set_hotkey (VStr "ctrl+alt+k") seeded_config))
  /\ (hotkey (heap surrogate_saved_state !!! 0) = VStr "f9"
      /\ snd (handler rejects_empty ClickSave surrogate_typed_state)
         = Raise UnicodeEncodeError
      /\ load example_manager (files surrogate_saved_state) = Raise JSONDecodeError
      /\ hooks surrogate_saved_state = [VStr "ctrl+alt+k"]
      /\ dialogs surrogate_saved_state = []).
Proof.
  split.
  - destruct (save_stores_stripped_hotkey rejects_empty str_of example_manager ∅
                typed_state typed_state_reachable) as (_ & _ & _ & Hheap & Hfile);
      [reflexivity|].
    split; [exact Hheap | exact Hfile].
  - destruct (save_stores_stripped_hotkey rejects_empty str_of example_manager
                surrogate_files surrogate_typed_state surrogate_typed_state_reachable)
      as (_ & _ & _ & Hheap & Hfailed); [reflexivity|].
    split; [exact (f_equal hotkey Hheap) | exact Hfailed].
Defined.

Lemma edit_item_replaces_witness :
  shortcuts (heap (fst (SettingsWindow_edit_item (Some "Win+R") (Some "Run")
                          one_entry_selected)) !!! 0)
  = [entry "Win+R" "Run"].
Proof.
  apply (edit_item_replaces rejects_empty str_of example_manager one_entry_files
           one_entry_selected 0 [] "Win+R" "Run").
  - exact one_entry_selected_reachable.
  - reflexivity.
  - discriminate.
Defined.

Lemma cancelled_prompt_changes_nothing_witness :
  SettingsWindow_add_item (Some "Win+R") None one_entry_selected = (one_entry_selected, Ok tt)
  /\ SettingsWindow_edit_item (Some "Win+R") None one_entry_selected
     = (one_entry_selected, Ok tt).
Proof.
  destruct (cancelled_prompt_changes_nothing rejects_empty str_of example_manager
              one_entry_files one_entry_selected (Some "Win+R") None) as [Hadd Hedit].
  - exact one_entry_selected_reachable.
  - right. right. reflexivity.
  - split; [exact Hadd|]. apply Hedit. discriminate.
Defined.

Lemma remove_twice_removes_once_witness :
  sw_selection (settings_window (fst (SettingsWindow_remove_item one_entry_selected))) = [].
Proof.
  apply (remove_twice_removes_once rejects_empty str_of example_manager one_entry_files
           one_entry_selected 0 [] None None).
  - exact one_entry_selected_reachable.
  - reflexivity.
Defined.

Lemma only_the_save_button_raises_witness :
  (snd (handler rejects_nokey ClickSave nokey_state) = Ok tt
   \/ (ClickSave = ClickSave
       /\ strip (sw_hotkey_var (settings_window nokey_state)) <> ""
       /\ ((config_encodable (set_hotkey (VStr "ctrl+nokey") seeded_config) = false
            /\ snd (handler rejects_nokey ClickSave nokey_state) = Raise UnicodeEncodeError)
           \/ (config_encodable (set_hotkey (VStr "ctrl+nokey") seeded_config) = true
               /\ exists e,
                   rejects_nokey (VStr "ctrl+nokey") = Some e
                   /\ snd (handler rejects_nokey ClickSave nokey_state) = Raise e))))
  /\ snd (handler rejects_nokey ClickSave nokey_state) = Raise ValueError
  /\ snd (handler rejects_empty ClickSave surrogate_typed_state) = Raise UnicodeEncodeError.
Proof.
  split; [|split; reflexivity].
  apply (only_the_save_button_raises rejects_nokey str_of example_manager ∅
           nokey_state ClickSave).
  exact nokey_state_reachable.
Defined.

Lemma rejected_hotkey_is_saved_and_blocks_start_witness :
  snd (handler rejects_nokey ClickSave nokey_state) = Raise ValueError
  /\ hooks (fst (handler rejects_nokey ClickSave nokey_state)) = []
  /\ load example_manager (files (fst (handler rejects_nokey ClickSave nokey_state)))
     = Ok (set_hotkey (VStr "ctrl+nokey") seeded_config)
  /\ ShortcutApp_init rejects_nokey str_of example_manager
       (files (fst (handler rejects_nokey ClickSave nokey_state)))
     = Raise ValueError.
Proof.
  pose proof (rejected_hotkey_is_saved_and_blocks_start rejects_nokey str_of
                example_manager ∅ nokey_state ValueError nokey_state_reachable
                ltac:(discriminate) ltac:(reflexivity))
    as (Hraised & Hhooks & _ & Hfile & Hstart).
  by repeat split.
Defined.

Lemma binding_follows_saved_configuration_witness :
  (hooks surrogate_saved_state = []
   \/ hooks surrogate_saved_state = [hotkey (heap surrogate_saved_state !!! 0)]
   \/ load example_manager (files surrogate_saved_state) = Raise JSONDecodeError)
  /\ VStr "ctrl+shift+s" = hotkey seeded_config
  /\ (VStr "ctrl+shift+s" = hotkey (heap example_state !!! 0)
      \/ load example_manager (files example_state) = Raise JSONDecodeError).
Proof.
  destruct (binding_follows_saved_configuration rejects_empty str_of example_manager
              surrogate_files surrogate_saved_state surrogate_saved_state_reachable)
    as (_ & Hbound & _).
  destruct (binding_follows_saved_configuration rejects_empty str_of example_manager ∅
              example_state example_state_reachable) as (_ & _ & Honly).
  destruct (Honly (VStr "ctrl+shift+s")) as [Hfile Hobject].
  { cbn. by apply list_elem_of_singleton. }
  split; [exact Hbound|]. split; [|exact Hobject].
  apply Hfile. reflexivity.
Defined.

Lemma settings_tree_mirrors_entries_witness :
  sw_tree (settings_window one_entry_selected) = [(VStr "Win+D", VStr "Show desktop")]
  /\ Forall (fun i => i < 1) (sw_selection (settings_window one_entry_selected)).
Proof.
  apply (settings_tree_mirrors_entries rejects_empty str_of example_manager one_entry_files
           one_entry_selected).
  exact one_entry_selected_reachable.
Defined.

Lemma editor_keeps_titles_witness :
  Forall (fun item => titled item = true) (shortcuts (heap typed_state !!! 0)).
Proof.
  apply (editor_keeps_titles rejects_empty str_of example_manager ∅ typed_state
           seeded_config).
  - reflexivity.
  - repeat constructor.
  - exact typed_state_reachable.
Defined.

Lemma show_lists_current_entries_witness :
  ov_tree (overlay (fst (ShortcutOverlay_show example_state))) = rows_of seeded_config.
Proof.
  apply (show_lists_current_entries rejects_empty str_of example_manager ∅ example_state).
  exact example_state_reachable.
Defined.

Lemma add_then_remove_last_witness :
  shortcuts
    (heap (run_events rejects_empty
             [ClickAdd (Some "Win+D") (Some "Show desktop"); SelectRows [2]; ClickRemove]
             example_state) !!! 0)
  = shortcuts seeded_config.
Proof.
  apply (add_then_remove_last rejects_empty str_of example_manager ∅ example_state
           "Win+D" "Show desktop").
  - exact example_state_reachable.
  - discriminate.
Defined.

Lemma closing_releases_binding_witness :
  hooks closed_state = []
  /\ ~ step rejects_empty closed_state ClickShowShortcuts
        (fst (handler rejects_empty ClickShowShortcuts closed_state)).
Proof.
  destruct (closing_releases_binding rejects_empty str_of example_manager ∅ closed_state)
    as [Hnone Hstuck].
  - exact closed_state_reachable.
  - reflexivity.
  - split; [exact Hnone | apply Hstuck].
Defined.

Lemma only_editor_changes_configuration_witness :
  heap (fst (handler rejects_empty (TypeHotkey "f9") example_state)) !!! 0 = seeded_config
  /\ files (fst (handler rejects_empty (TypeHotkey "f9") example_state)) = ∅
  /\ hooks (fst (handler rejects_empty (TypeHotkey "f9") example_state))
     = [VStr "ctrl+shift+s"].
Proof.
  destruct (only_editor_changes_configuration rejects_empty str_of example_manager ∅
              example_state (TypeHotkey "f9") example_state_reachable)
    as (Hentries & Hhotkey & Hhooks).
  destruct (Hhotkey ltac:(discriminate)) as [_ Hfiles].
  pose proof (Hentries eq_refl) as Hsame.
  pose proof (Hhooks ltac:(discriminate) ltac:(discriminate)) as Hbound.
  split; [reflexivity|]. split; [exact Hfiles | exact Hbound].
Defined.

Lemma load_first_bad_entry_witness :
  load example_manager broken_entry_files = Raise (KeyError "description").
Proof.
  apply (load_first_bad_entry example_manager broken_entry_files
           [("shortcuts",
             VList [item_to_json (entry "Win+E" "Open File Explorer");
                    VDict [("title", VStr "Win+L")]; VInt 7])]
           [item_to_json (entry "Win+E" "Open File Explorer")] [VInt 7]
           (VDict [("title", VStr "Win+L")])); reflexivity.
Defined.

Lemma load_shortcuts_not_a_list_witness :
  load example_manager {[ "config.json"%string := JsonText (VDict [("shortcuts", VInt 3)]) ]}
  = Raise TypeError
  /\ load example_manager {[ "config.json"%string := JsonText (VDict [("shortcuts", VStr "")]) ]}
     = Ok {| hotkey := default_hotkey; shortcuts := [] |}.
Proof.
  split.
  - apply (load_shortcuts_not_a_list example_manager _ [("shortcuts", VInt 3)] (VInt 3));
      [reflexivity | reflexivity | discriminate].
  - apply (load_shortcuts_not_a_list example_manager _ [("shortcuts", VStr "")] (VStr ""));
      [reflexivity | reflexivity | discriminate].
Defined.


Lemma load_ignores_unknown_fields_witness :
  prune annotated_document
  = VDict [("shortcuts", VList [item_to_json (entry "Win+D" "Show desktop")]);
           ("hotkey", VStr "ctrl+alt+k")]
  /\ load example_manager (<[path example_manager := JsonText annotated_document]> ∅)
     = load example_manager
         (<[path example_manager := JsonText (prune annotated_document)]> ∅).
Proof.
  split; [reflexivity|].
  apply (load_ignores_unknown_fields example_manager ∅ annotated_document).
Defined.
